(** * const-utils: constant classes and their registry

    A shallow embedding of [src/const_utils/utils.py],
    [src/const_utils/utility_funcs.py] and [src/const_utils/const_class.py],
    and the properties of the constant registry proved about it.

    Layout: Python strings and the naming rule [is_const]; the object model
    (values, exceptions, classes, namespaces, frames); the methods of the
    metaclass [ConstClassMeta]; then the theorems. *)

From stdpp Require Import gmap strings list fin_maps.

Open Scope N_scope.

(** ** Python strings

    A [str] is a sequence of Unicode code points. *)

Abbreviation str := (list N).

(** The code points of an ASCII literal. *)
Definition pystr (s : string) : str :=
  (λ a, N.of_nat (Ascii.nat_of_ascii a)) <$> String.list_ascii_of_string s.

(** What the interpreter's character database records about a code point and
    the string methods below consult: the identifier properties XID_Start
    and XID_Continue, and the case of the character.  In the database the
    three case flags (upper, lower, title) exclude one another, hence one
    field. *)
Inductive casing := Uncased | Upper | Lower | Title.

Record char_props := CharProps {
  xid_start : bool;
  xid_continue : bool;
  case_of : casing
}.

Global Instance casing_eq_dec : EqDecision casing.
Proof. solve_decision. Defined.

(** A character that is neither an identifier character nor cased. *)
Definition other_char : char_props := CharProps false false Uncased.

(** The database beyond the blocks tabulated here.  It changes from one
    Unicode version to the next; the theorems hold whatever it is. *)
Class UnicodeDB := ucd_other : N → char_props.

Definition in_range (lo hi c : N) : bool := (lo <=? c) && (c <=? hi).

(** Basic Latin, U+0000 to U+007F. *)
Definition basic_latin (c : N) : char_props :=
  if in_range 65 90 c then CharProps true true Upper          (* A-Z *)
  else if in_range 97 122 c then CharProps true true Lower    (* a-z *)
  else if in_range 48 57 c then CharProps false true Uncased  (* 0-9 *)
  else if c =? 95 then CharProps false true Uncased           (* _ *)
  else other_char.

(** CJK unified ideographs, U+4E00 to U+9FA5: letters without case. *)
Definition ideograph : char_props := CharProps true true Uncased.

Definition ucd `{UnicodeDB} (c : N) : char_props :=
  if c <? 128 then basic_latin c
  else if in_range 0x4E00 0x9FA5 c then ideograph
  else ucd_other c.

(** A database with no identifier character and no cased character
    outside the tabulated blocks; it serves to run the model on concrete
    inputs of these blocks. *)
Definition ucd_tabulated : UnicodeDB := λ _, other_char.

(** [sep.join(items)]. *)
Fixpoint str_join (sep : str) (items : list str) : str :=
  match items with
  | [] => []
  | [s] => s
  | s :: rest => s ++ sep ++ str_join sep rest
  end.

Section StrMethods.
Context `{UnicodeDB}.

Definition Py_UNICODE_ISUPPER (c : N) : bool :=
  bool_decide (case_of (ucd c) = Upper).
Definition Py_UNICODE_ISLOWER (c : N) : bool :=
  bool_decide (case_of (ucd c) = Lower).
Definition Py_UNICODE_ISTITLE (c : N) : bool :=
  bool_decide (case_of (ucd c) = Title).

(** [str.isidentifier]: not empty, the first character is XID_Start or
    an underscore, the others are XID_Continue. *)
Definition isidentifier (s : str) : bool :=
  match s with
  | [] => false
  | c :: rest =>
      (xid_start (ucd c) || (c =? 0x5F))
      && forallb (λ d, xid_continue (ucd d)) rest
  end.

(** The loop of [str.isupper]: false at the first lowercase or titlecase
    character, otherwise whether an uppercase character was seen. *)
Fixpoint isupper_loop (cased : bool) (s : str) : bool :=
  match s with
  | [] => cased
  | ch :: rest =>
      if Py_UNICODE_ISLOWER ch || Py_UNICODE_ISTITLE ch then false
      else isupper_loop (cased || Py_UNICODE_ISUPPER ch) rest
  end.

(** [str.isupper], with its shortcuts for one character and for the
    empty string. *)
Definition isupper (s : str) : bool :=
  match s with
  | [ch] => Py_UNICODE_ISUPPER ch
  | [] => false
  | _ => isupper_loop false s
  end.

(** [str.startswith]. *)
Fixpoint startswith (s prefix : str) : bool :=
  match prefix, s with
  | [], _ => true
  | p :: prefix', c :: s' => (c =? p) && startswith s' prefix'
  | _ :: _, [] => false
  end.

(** [utils.is_const] and its copy [utility_funcs.is_const]. *)
Definition is_const (name : str) : bool :=
  isidentifier name && isupper name && negb (startswith name (pystr "_")).

(** The naming rule in the words of the specification: a valid
    identifier, every cased character uppercase, no leading underscore. *)
Definition is_cased (c : N) : bool :=
  Py_UNICODE_ISUPPER c || Py_UNICODE_ISLOWER c || Py_UNICODE_ISTITLE c.

Definition is_const_spec (name : str) : Prop :=
  isidentifier name = true
  ∧ (∀ c, c ∈ name → is_cased c = true → Py_UNICODE_ISUPPER c = true)
  ∧ startswith name (pystr "_") = false.
End StrMethods.


(** ** Values, exceptions and results *)

(** The values a class attribute or a variable may hold.  The operations
    modelled here store and return values and never inspect them. *)
Inductive value :=
  | VNone
  | VInt (z : Z)
  | VFloat (m e : Z)   (* the decimal literal m * 10^e *)
  | VStr (s : str)
  | VObj (a : N).      (* any other object, by identity *)

Inductive exn :=
  | AttributeError (name : str)   (* no attribute of that name *)
  | KeyError (key : N)            (* no entry for that class in the cache *)
  | NameError (ref : N)           (* the class expression denotes no class *)
  | ValueError (msg : str)
  | RuntimeError (msg : str)
  | ModuleNotFoundError (name : str).

Inductive res (A : Type) :=
  | Ok (a : A)
  | Raise (e : exn).
Arguments Ok {A} a.
Arguments Raise {A} e.

Global Instance value_eq_dec : EqDecision value.
Proof. solve_decision. Defined.

(** ** Classes

    A class is known by its identity.  [cls_mro] is the method resolution
    order that [type.__new__] computed from the bases, without the class
    itself and without [object]; [cls_dict] is the class [__dict__]. *)
Inductive metaclass := MetaType | MetaConstClass.

Record pyclass := PyClass {
  cls_name : str;
  cls_meta : metaclass;
  cls_mro : list N;
  cls_dict : gmap str value
}.

(** The classes alive and [ConstClassMeta._class_constant_cache], the
    dictionary from a class to the set of its constant names. *)
Record pystate := PyState {
  classes : gmap N pyclass;
  _class_constant_cache : gmap N (gset str)
}.

Definition initial : pystate := PyState ∅ ∅.

Definition class_dict (st : pystate) (c : N) : gmap str value :=
  match classes st !! c with
  | Some k => cls_dict k
  | None => ∅
  end.

Definition mro (st : pystate) (c : N) : list N :=
  c :: match classes st !! c with
       | Some k => cls_mro k
       | None => []
       end.

(** The attribute names of [object]. *)
Definition object_dir : list str :=
  pystr <$> ["__class__"; "__delattr__"; "__dir__"; "__doc__"; "__eq__";
    "__format__"; "__ge__"; "__getattribute__"; "__getstate__"; "__gt__";
    "__hash__"; "__init__"; "__init_subclass__"; "__le__"; "__lt__";
    "__ne__"; "__new__"; "__reduce__"; "__reduce_ex__"; "__repr__";
    "__setattr__"; "__sizeof__"; "__str__"; "__subclasshook__"]%string.

(** [dir(cls)]: the names in the dictionaries of the class and of all its
    ancestors.  Python returns them as a sorted list; the one caller only
    collects them into a set. *)
Definition dir (st : pystate) (c : N) : gset str :=
  ⋃ ((λ b, dom (class_dict st b)) <$> mro st c) ∪ list_to_set object_dir.

(** The search of a name along the method resolution order. *)
Fixpoint lookup_along (st : pystate) (cs : list N) (name : str)
    : option value :=
  match cs with
  | [] => None
  | b :: rest =>
      match class_dict st b !! name with
      | Some v => Some v
      | None => lookup_along st rest name
      end
  end.

Definition class_lookup (st : pystate) (c : N) (name : str) : option value :=
  lookup_along st (mro st c) name.
Global Arguments class_lookup : simpl never.

(** [getattr(cls, name)].  [type.__getattribute__] also consults the
    metaclass and [object]; neither defines a name that [is_const] accepts
    (theirs are lowercase or start with an underscore), and the code under
    study reads registered names only, so the search along the method
    resolution order is all that is modelled.  Values are returned as they
    are stored. *)
Definition getattr (st : pystate) (c : N) (name : str) : res value :=
  match class_lookup st c name with
  | Some v => Ok v
  | None => Raise (AttributeError name)
  end.

(** The properties of [ConstClassMeta]: data descriptors without a setter
    or a deleter, which [type.__setattr__] and [type.__delattr__] find
    before they reach the class dictionary. *)
Definition meta_properties (m : metaclass) : list str :=
  match m with
  | MetaType => []
  | MetaConstClass => pystr <$> ["const_names"; "const_values"]%string
  end.

Definition set_dict (f : gmap str value → gmap str value) (k : pyclass)
    : pyclass :=
  PyClass (cls_name k) (cls_meta k) (cls_mro k) (f (cls_dict k)).

(** [type.__new__(meta, name, bases, namespace)]: a new class object.
    [ancestors] is the linearisation of the bases and [namespace] the
    class dictionary as [type.__new__] fills it, the bindings of the class
    body and the entries the interpreter adds ([__module__], [__doc__]
    and the like). *)
Definition type_new (meta : metaclass) (name : str) (ancestors : list N)
    (namespace : gmap str value) (st : pystate) : N * pystate :=
  let c := fresh (dom (classes st)) in
  (c, PyState (<[c := PyClass name meta ancestors namespace]> (classes st))
              (_class_constant_cache st)).

(** [type.__setattr__(cls, name, value)]. *)
Definition type_setattr (st : pystate) (c : N) (name : str) (v : value)
    : res pystate :=
  match classes st !! c with
  | None => Raise (NameError c)
  | Some k =>
      if bool_decide (name ∈ meta_properties (cls_meta k))
      then Raise (AttributeError name)
      else Ok (PyState (<[c := set_dict (insert name v) k]> (classes st))
                       (_class_constant_cache st))
  end.

(** [type.__delattr__(cls, name)]: only a name of the class's own
    dictionary can be deleted. *)
Definition type_delattr (st : pystate) (c : N) (name : str) : res pystate :=
  match classes st !! c with
  | None => Raise (NameError c)
  | Some k =>
      if bool_decide (name ∈ meta_properties (cls_meta k))
      then Raise (AttributeError name)
      else
        match cls_dict k !! name with
        | None => Raise (AttributeError name)
        | Some _ =>
            Ok (PyState (<[c := set_dict (delete name) k]> (classes st))
                        (_class_constant_cache st))
        end
  end.

(** ** Namespaces and frames

    A namespace dictionary (the [__dict__] of a module, the globals or the
    locals of a frame) lives at an address of the heap, so that a module
    and the frames that run its code share one dictionary. *)
Record heap := Heap {
  dicts : gmap N (gmap str value);
  sys_modules : gmap str N          (* module name to its [__dict__] *)
}.

Definition dict_at (h : heap) (d : N) : gmap str value :=
  default ∅ (dicts h !! d).

(** The two kinds of object that [__apply] receives as [namespace]. *)
Inductive pyobj :=
  | PyModule (d : N)   (* a module, with the address of its [__dict__] *)
  | PyDict (d : N).    (* a dictionary *)

(** The attribute names of the type [dict]. *)
Definition dict_type_dir : list str :=
  pystr <$> ["__class__"; "__class_getitem__"; "__contains__"; "__delattr__";
    "__delitem__"; "__dir__"; "__doc__"; "__eq__"; "__format__"; "__ge__";
    "__getattribute__"; "__getitem__"; "__getstate__"; "__gt__"; "__hash__";
    "__init__"; "__init_subclass__"; "__ior__"; "__iter__"; "__le__";
    "__len__"; "__lt__"; "__ne__"; "__new__"; "__or__"; "__reduce__";
    "__reduce_ex__"; "__repr__"; "__reversed__"; "__ror__"; "__setattr__";
    "__setitem__"; "__sizeof__"; "__str__"; "__subclasshook__"; "clear";
    "copy"; "fromkeys"; "get"; "items"; "keys"; "pop"; "popitem";
    "setdefault"; "update"; "values"]%string.

(** The attribute names of the type of modules. *)
Definition module_type_dir : list str :=
  pystr <$> ["__annotations__"; "__class__"; "__delattr__"; "__dict__";
    "__dir__"; "__doc__"; "__eq__"; "__format__"; "__ge__";
    "__getattribute__"; "__getstate__"; "__gt__"; "__hash__"; "__init__";
    "__init_subclass__"; "__le__"; "__lt__"; "__ne__"; "__new__";
    "__reduce__"; "__reduce_ex__"; "__repr__"; "__setattr__"; "__sizeof__";
    "__str__"; "__subclasshook__"]%string.

(** [hasattr(obj, name)] looks for an attribute of the object: on a
    module, a name of its type or a variable of the module; on a
    dictionary, a name of the type [dict].  The keys of a dictionary are
    not attributes of it. *)
Definition hasattr (h : heap) (o : pyobj) (name : str) : bool :=
  match o with
  | PyModule d =>
      bool_decide (name ∈ module_type_dir)
      || bool_decide (is_Some (dict_at h d !! name))
  | PyDict _ => bool_decide (name ∈ dict_type_dir)
  end.

Definition store (d : N) (name : str) (v : value) (h : heap) : heap :=
  Heap (<[d := <[name := v]> (dict_at h d)]> (dicts h)) (sys_modules h).

(** [obj.__setattr__(name, value)]: a module stores the value in its
    [__dict__]; a dictionary takes no attribute. *)
Definition obj_setattr (o : pyobj) (name : str) (v : value) (h : heap)
    : res () * heap :=
  match o with
  | PyModule d => (Ok (), store d name v h)
  | PyDict _ => (Raise (AttributeError name), h)
  end.

(** [namespace.__setitem__(name, value)], for the dictionary at [d]. *)
Definition dict_setitem (d : N) (name : str) (v : value) (h : heap)
    : res () * heap :=
  (Ok (), store d name v h).

(** [importlib.import_module(module_name)], over the modules that can be
    imported. *)
Definition import_module (h : heap) (module_name : str) : res pyobj :=
  match sys_modules h !! module_name with
  | Some d => Ok (PyModule d)
  | None => Raise (ModuleNotFoundError module_name)
  end.

(** A frame: the addresses of its local and global namespaces and the
    frame of its caller, if it has one. *)
#[warnings="-register-all"]
Inductive frame := Frame (locals globals : N) (back : option frame).

Definition f_locals (f : frame) : N := let 'Frame l _ _ := f in l.
Definition f_globals (f : frame) : N := let 'Frame _ g _ := f in g.
Definition f_back (f : frame) : option frame := let 'Frame _ _ b := f in b.

(** ** The metaclass [ConstClassMeta]

    Methods that only read return a [res]; methods that write return the
    outcome together with the state they leave, raised exception or not.
    A set is iterated in the order of [elements]. *)
Module ConstClassMeta.
Section Methods.
Context `{UnicodeDB}.

(** [__new__(cls, *args, **kwargs)] *)
Definition __new__ (st : pystate) (name : str) (ancestors : list N)
    (namespace : gmap str value) : N * pystate :=
  let '(const_class, st1) :=
    type_new MetaConstClass name ancestors namespace st in
  let constants : gset str :=
    filter (λ name, is_const name = true) (dir st1 const_class) in
  (const_class,
   PyState (classes st1)
           (<[const_class := constants]> (_class_constant_cache st1))).

(** The text of the error raised by [__getitem__]. *)
Definition no_such_constant (cls_name item : str)
    (class_constants : gset str) : str :=
  let available := str_join (pystr ", ") (elements class_constants) in
  pystr "Class " ++ cls_name ++ pystr " does not contain a constant named "
  ++ item ++ pystr ". Existing constants are " ++ available.

(** [__getitem__(cls, item)] *)
Definition __getitem__ (st : pystate) (cls : N) (item : str) : res value :=
  match _class_constant_cache st !! cls with
  | None => Raise (KeyError cls)
  | Some class_constants =>
      if bool_decide (item ∈ class_constants) then getattr st cls item
      else
        match classes st !! cls with
        | None => Raise (NameError cls)
        | Some k =>
            Raise (ValueError
                     (no_such_constant (cls_name k) item class_constants))
        end
  end.

(** [__setattr__(cls, name, value)] *)
Definition __setattr__ (st : pystate) (cls : N) (name : str) (v : value)
    : res () * pystate :=
  match type_setattr st cls name v with
  | Raise e => (Raise e, st)
  | Ok st1 =>
      match _class_constant_cache st1 !! cls with
      | None => (Raise (KeyError cls), st1)
      | Some class_constants =>
          if is_const name && negb (bool_decide (name ∈ class_constants))
          then (Ok (),
                PyState (classes st1)
                        (<[cls := class_constants ∪ {[name]}]>
                           (_class_constant_cache st1)))
          else (Ok (), st1)
      end
  end.

(** [__delattr__(cls, name)] *)
Definition __delattr__ (st : pystate) (cls : N) (name : str)
    : res () * pystate :=
  match type_delattr st cls name with
  | Raise e => (Raise e, st)
  | Ok st1 =>
      match _class_constant_cache st1 !! cls with
      | None => (Raise (KeyError cls), st1)
      | Some class_constants =>
          if bool_decide (name ∈ class_constants)
          then (Ok (),
                PyState (classes st1)
                        (<[cls := class_constants ∖ {[name]}]>
                           (_class_constant_cache st1)))
          else (Ok (), st1)
      end
  end.

(** The dictionary comprehension of [as_dict], one [getattr] per name;
    the result lists the items in insertion order. *)
Fixpoint read_constants (st : pystate) (cls : N) (names : list str)
    : res (list (str * value)) :=
  match names with
  | [] => Ok []
  | const_name :: rest =>
      match getattr st cls const_name with
      | Raise e => Raise e
      | Ok v =>
          match read_constants st cls rest with
          | Raise e => Raise e
          | Ok items => Ok ((const_name, v) :: items)
          end
      end
  end.

(** [as_dict(cls)] *)
Definition as_dict (st : pystate) (cls : N) : res (list (str * value)) :=
  match _class_constant_cache st !! cls with
  | None => Raise (KeyError cls)
  | Some class_constants => read_constants st cls (elements class_constants)
  end.

(** The properties [const_names] and [const_values]. *)
Definition const_names (st : pystate) (cls : N) : res (list str) :=
  match as_dict st cls with
  | Ok items => Ok (items.*1)
  | Raise e => Raise e
  end.

Definition const_values (st : pystate) (cls : N) : res (list value) :=
  match as_dict st cls with
  | Ok items => Ok (items.*2)
  | Raise e => Raise e
  end.

(** The loop of [__apply] over the names still to visit. *)
Fixpoint apply_loop (st : pystate) (cls : N) (namespace : pyobj)
    (override : bool) (f_assign : str → value → heap → res () * heap)
    (names : list str) (h : heap) : res () * heap :=
  match names with
  | [] => (Ok (), h)
  | name :: rest =>
      match getattr st cls name with
      | Raise e => (Raise e, h)
      | Ok v =>
          if negb override && hasattr h namespace name
          then apply_loop st cls namespace override f_assign rest h
          else
            match f_assign name v h with
            | (Ok _, h1) =>
                apply_loop st cls namespace override f_assign rest h1
            | (Raise e, h1) => (Raise e, h1)
            end
      end
  end.

(** [__apply(cls, namespace, override, f_assign)] *)
Definition __apply (st : pystate) (cls : N) (namespace : pyobj)
    (override : bool) (f_assign : str → value → heap → res () * heap)
    (h : heap) : res () * heap :=
  match _class_constant_cache st !! cls with
  | None => (Raise (KeyError cls), h)
  | Some class_constants =>
      apply_loop st cls namespace override f_assign
        (elements class_constants) h
  end.

(** [apply_to_module(cls, module_name, override=False)] *)
Definition apply_to_module (st : pystate) (cls : N) (module_name : str)
    (override : bool) (h : heap) : res () * heap :=
  match import_module h module_name with
  | Raise e => (Raise e, h)
  | Ok module => __apply st cls module override (obj_setattr module) h
  end.

(** [apply(cls, local=False, override=False)].  [current_frame] is what
    [inspect.currentframe()] returned: the frame of [apply] itself, or
    [None] on an interpreter without stack frames. *)
Definition apply (st : pystate) (cls : N) (current_frame : option frame)
    (local override : bool) (h : heap) : res () * heap :=
  match current_frame with
  | None => (Raise (RuntimeError (pystr "Cannot retrieve current frame")), h)
  | Some current_frame =>
      match f_back current_frame with
      | None =>
          (* [caller_frame] is [None], which has no such attribute *)
          (Raise (AttributeError
                    (pystr (if local then "f_locals" else "f_globals"))), h)
      | Some caller_frame =>
          let namespace :=
            if local then f_locals caller_frame
            else f_globals caller_frame in
          __apply st cls (PyDict namespace) override
            (dict_setitem namespace) h
      end
  end.
End Methods.
End ConstClassMeta.

(** [utility_funcs.access_namespace_consts(local=False)] *)
Definition access_namespace_consts `{UnicodeDB}
    (current_frame : option frame) (local : bool) (h : heap)
    : res (gmap str value) :=
  match current_frame with
  | None => Raise (RuntimeError (pystr "Cannot retrieve current frame"))
  | Some current_frame =>
      match f_back current_frame with
      | None =>
          Raise (AttributeError
                   (pystr (if local then "f_locals" else "f_globals")))
      | Some caller_frame =>
          let namespace :=
            if local then f_locals caller_frame
            else f_globals caller_frame in
          Ok (filter (λ item, is_const item.1 = true) (dict_at h namespace))
      end
  end.

(** ** Statements on classes

    The three statements that reach the metaclass: a class definition,
    an assignment to a class attribute and the deletion of one. *)

Definition registered (st : pystate) (c : N) : gset str :=
  default ∅ (_class_constant_cache st !! c).

(** Every registered constant of the class is still one of its
    attributes. *)
Definition all_resolve (st : pystate) (c : N) : Prop :=
  ∀ name, name ∈ registered st c → is_Some (class_lookup st c name).

Inductive stmt :=
  | ClassDef (meta : metaclass) (name : str) (ancestors : list N)
      (namespace : gmap str value)
  | SetAttr (c : N) (name : str) (v : value)
  | DelAttr (c : N) (name : str).

Section Statements.
Context `{UnicodeDB}.

(** The metaclass of a new class: the one asked for, or
    [ConstClassMeta] when an ancestor has it. *)
Definition metaclass_of (st : pystate) (meta : metaclass)
    (ancestors : list N) : metaclass :=
  if existsb (λ b, match classes st !! b with
                   | Some (PyClass _ MetaConstClass _ _) => true
                   | _ => false
                   end) ancestors
  then MetaConstClass else meta.

(** [class name(bases, metaclass=meta): ...] *)
Definition class_statement (st : pystate) (meta : metaclass) (name : str)
    (ancestors : list N) (namespace : gmap str value) : N * pystate :=
  match metaclass_of st meta ancestors with
  | MetaConstClass => ConstClassMeta.__new__ st name ancestors namespace
  | MetaType => type_new MetaType name ancestors namespace st
  end.

(** [cls.name = value] *)
Definition setattr_statement (st : pystate) (c : N) (name : str) (v : value)
    : res () * pystate :=
  match classes st !! c with
  | None => (Raise (NameError c), st)
  | Some k =>
      match cls_meta k with
      | MetaConstClass => ConstClassMeta.__setattr__ st c name v
      | MetaType =>
          match type_setattr st c name v with
          | Ok st1 => (Ok (), st1)
          | Raise e => (Raise e, st)
          end
      end
  end.

(** [del cls.name] *)
Definition delattr_statement (st : pystate) (c : N) (name : str)
    : res () * pystate :=
  match classes st !! c with
  | None => (Raise (NameError c), st)
  | Some k =>
      match cls_meta k with
      | MetaConstClass => ConstClassMeta.__delattr__ st c name
      | MetaType =>
          match type_delattr st c name with
          | Ok st1 => (Ok (), st1)
          | Raise e => (Raise e, st)
          end
      end
  end.

(** One statement, and a sequence of them in which a raised exception
    is caught and the next statement goes on from the state it left. *)
Definition exec (st : pystate) (s : stmt) : pystate :=
  match s with
  | ClassDef meta name ancestors namespace =>
      (class_statement st meta name ancestors namespace).2
  | SetAttr c name v => (setattr_statement st c name v).2
  | DelAttr c name => (delattr_statement st c name).2
  end.

Definition run (prog : list stmt) (st : pystate) : pystate :=
  foldl exec st prog.

(** The registry holds constant names only. *)
Definition cache_const (st : pystate) : Prop :=
  ∀ c reg n,
    _class_constant_cache st !! c = Some reg → n ∈ reg → is_const n = true.

(** Every registry of a constant class is in step with the class: the
    names it holds are attributes of the class. *)
Definition in_step (st : pystate) : Prop :=
  ∀ c k, classes st !! c = Some k → cls_meta k = MetaConstClass
         → all_resolve st c.

(** The statement deletes no attribute of a class that has descendants;
    and a program none of whose statements does. *)
Definition deletes_from_leaf (st : pystate) (s : stmt) : Prop :=
  match s with
  | DelAttr b _ => ∀ c, c ≠ b → b ∉ mro st c
  | _ => True
  end.

Fixpoint deletes_from_leaves (prog : list stmt) (st : pystate) : Prop :=
  match prog with
  | [] => True
  | s :: rest => deletes_from_leaf st s ∧ deletes_from_leaves rest (exec st s)
  end.
End Statements.


(** The namespace that [apply] writes to: the locals or the globals of
    the caller's frame, when there is one. *)
Definition scope_of (current_frame : option frame) (local : bool)
    : option N :=
  match current_frame with
  | None => None
  | Some current_frame =>
      match f_back current_frame with
      | None => None
      | Some caller_frame =>
          Some (if local then f_locals caller_frame
                else f_globals caller_frame)
      end
  end.

(** ** A session

    The state after [const_class.py] is loaded holds [BaseConstClass];
    on it the session defines
<<
    class MathConsts(BaseConstClass):
        PI = 3.14159
        helper = lambda: None

    class Derived(MathConsts):
        pass
>>
    The three classes get the identities 0, 1 and 2.  The entries that
    the interpreter adds to a class dictionary ([__module__], [__doc__])
    are left out of the three namespaces: their names are not constant
    names and no statement of the session reads them. *)

Definition BaseConstClass : N := 0.
Definition MathConsts : N := 1.
Definition Derived : N := 2.

Definition PI : str := pystr "PI".
Definition E : str := pystr "E".
Definition helper : str := pystr "helper".

Definition session : list stmt :=
  [ ClassDef MetaConstClass (pystr "BaseConstClass") [] ∅;
    ClassDef MetaType (pystr "MathConsts") [BaseConstClass]
      {[ PI := VFloat 314159 (-5); helper := VObj 1 ]};
    ClassDef MetaType (pystr "Derived") [MathConsts; BaseConstClass] ∅ ].

Definition defined : pystate := @run ucd_tabulated session initial.

(** [del MathConsts.PI] leaves [Derived] with a registered name that is
    no attribute of it any more. *)
Definition stale : pystate :=
  @run ucd_tabulated [DelAttr MathConsts PI] defined.

(** A module [config] with the variable [PI = 0], a frame of its code,
    and the frame of [apply] called from that code. *)
Definition config_dict : N := 7.

Definition config_heap : heap :=
  Heap {[ config_dict := {[ PI := VInt 0 ]} ]}
       {[ pystr "config" := config_dict ]}.

Definition config_frame : frame := Frame config_dict config_dict None.
Definition apply_frame : frame := Frame 8 9 (Some config_frame).

(** * Properties *)

(** ** The naming rule *)

Section NamingRule.
Context `{UnicodeDB}.

Lemma upper_is_cased c : Py_UNICODE_ISUPPER c = true → is_cased c = true.
Proof. unfold is_cased. by intros ->. Qed.

(** A character passes the test of the loop of [isupper] when it is not
    cased or is uppercase. *)
Lemma lower_or_title c :
  Py_UNICODE_ISLOWER c || Py_UNICODE_ISTITLE c = false
  ↔ (is_cased c = true → Py_UNICODE_ISUPPER c = true).
Proof.
  unfold is_cased, Py_UNICODE_ISLOWER, Py_UNICODE_ISTITLE,
    Py_UNICODE_ISUPPER.
  destruct (case_of (ucd c)); cbn; split; try done;
    intros Hup; by specialize (Hup eq_refl).
Qed.

Lemma isupper_loop_true cased s :
  isupper_loop cased s = true
  ↔ (cased = true ∨ ∃ c, c ∈ s ∧ Py_UNICODE_ISUPPER c = true)
    ∧ ∀ c, c ∈ s → is_cased c = true → Py_UNICODE_ISUPPER c = true.
Proof.
  revert cased. induction s as [|ch s IH]; intros cased; cbn.
  - split.
    + intros ->. split; [by left|]. by intros c ?%elem_of_nil.
    + intros [[?|(c & ?%elem_of_nil & _)] _]; done.
  - destruct (Py_UNICODE_ISLOWER ch || Py_UNICODE_ISTITLE ch) eqn:Hlt.
    + split; [done|]. intros [_ Hall].
      assert (Py_UNICODE_ISLOWER ch || Py_UNICODE_ISTITLE ch = false)
        as Hno; [|congruence].
      apply lower_or_title. apply Hall. left.
    + rewrite IH. pose proof (proj1 (lower_or_title ch) Hlt) as Hlt'. split.
      * intros [Hex Hall]. split.
        -- destruct Hex as [[->| Hch]%orb_prop | (c & Hc & Hup)].
           ++ by left.
           ++ right. exists ch. split; [left | done].
           ++ right. exists c. split; [by right | done].
        -- intros c [->|Hc]%elem_of_cons; auto.
      * intros [Hex Hall]. split.
        -- destruct Hex as [-> | (c & [->|Hc]%elem_of_cons & Hup)].
           ++ by left.
           ++ left. rewrite Hup. apply orb_true_r.
           ++ right. by exists c.
        -- intros c Hc. apply Hall. by right.
Qed.

(** The shortcuts of [isupper] agree with its loop. *)
Lemma isupper_loop_eq s : isupper s = isupper_loop false s.
Proof.
  destruct s as [|ch [|ch' s]]; try done. cbn.
  unfold Py_UNICODE_ISLOWER, Py_UNICODE_ISTITLE, Py_UNICODE_ISUPPER.
  by destruct (case_of (ucd ch)).
Qed.

Lemma isupper_true s :
  isupper s = true
  ↔ (∃ c, c ∈ s ∧ Py_UNICODE_ISUPPER c = true)
    ∧ ∀ c, c ∈ s → is_cased c = true → Py_UNICODE_ISUPPER c = true.
Proof.
  rewrite isupper_loop_eq, isupper_loop_true. split.
  - by intros [[?|?] ?].
  - intros [? ?]. split; [by right | done].
Qed.

Lemma startswith_underscore name :
  startswith name (pystr "_") = true ↔ ∃ rest, name = 0x5F :: rest.
Proof.
  change (pystr "_") with [0x5F].
  destruct name as [|c rest]; cbn [startswith].
  - split; [done | by intros [? ?]].
  - replace (startswith rest []) with true by (by destruct rest).
    rewrite andb_true_r, N.eqb_eq. split.
    + intros ->. by exists rest.
    + by intros [? [= -> _]].
Qed.

Lemma is_const_true name :
  is_const name = true
  ↔ isidentifier name = true
    ∧ (∃ c, c ∈ name ∧ Py_UNICODE_ISUPPER c = true)
    ∧ (∀ c, c ∈ name → is_cased c = true → Py_UNICODE_ISUPPER c = true)
    ∧ startswith name (pystr "_") = false.
Proof.
  unfold is_const.
  rewrite !andb_true_iff, negb_true_iff, isupper_true. tauto.
Qed.

(** No constant name starts with an underscore. *)
Lemma is_const_no_underscore name rest :
  name = 0x5F :: rest → is_const name = false.
Proof.
  intros ->. unfold is_const.
  replace (startswith (0x5F :: rest) (pystr "_")) with true;
    [apply andb_false_r|].
  symmetry. apply startswith_underscore. by exists rest.
Qed.

(** The ASCII letters and digits as the database has them. *)
Lemma ascii_upper c : in_range 65 90 c = true → ucd c = CharProps true true Upper.
Proof.
  unfold in_range, ucd, basic_latin, in_range.
  intros [?%N.leb_le ?%N.leb_le]%andb_prop.
  destruct (N.ltb_spec c 128); [|lia].
  by rewrite (proj2 (N.leb_le 65 c)), (proj2 (N.leb_le c 90)).
Qed.

Lemma ascii_digit c :
  in_range 48 57 c = true → ucd c = CharProps false true Uncased.
Proof.
  unfold in_range, ucd, basic_latin, in_range.
  intros [?%N.leb_le ?%N.leb_le]%andb_prop.
  destruct (N.ltb_spec c 128); [|lia].
  destruct (N.leb_spec 65 c); [lia|]. cbn.
  destruct (N.leb_spec 97 c); [lia|]. cbn.
  by rewrite (proj2 (N.leb_le 48 c)), (proj2 (N.leb_le c 57)).
Qed.

(** An identifier made of uppercase ASCII letters and of digits is a
    constant name. *)
Lemma is_const_ascii_upper name :
  isidentifier name = true
  → (∀ c, c ∈ name → in_range 65 90 c || in_range 48 57 c = true)
  → is_const name = true.
Proof.
  intros Hid Hchars. apply is_const_true.
  destruct name as [|c0 rest]; [done|].
  assert (in_range 65 90 c0 = true) as Hc0.
  { destruct (orb_prop _ _ (Hchars c0 ltac:(left))) as [?|Hd]; [done|].
    cbn in Hid. rewrite (ascii_digit _ Hd) in Hid. cbn in Hid.
    unfold in_range in Hd.
    apply andb_prop in Hd as [?%N.leb_le ?%N.leb_le].
    destruct (N.eqb_spec c0 95); [lia | done]. }
  split_and!; [done | | |].
  - exists c0. split; [left|].
    unfold Py_UNICODE_ISUPPER. by rewrite (ascii_upper _ Hc0).
  - intros c Hc. unfold is_cased, Py_UNICODE_ISUPPER, Py_UNICODE_ISLOWER,
      Py_UNICODE_ISTITLE.
    destruct (orb_prop _ _ (Hchars c Hc)) as [Hu|Hd].
    + by rewrite (ascii_upper _ Hu).
    + by rewrite (ascii_digit _ Hd).
  - apply not_true_is_false. intros [? [= -> _]]%startswith_underscore.
    done.
Qed.
End NamingRule.

(** ** The registry *)

Section Registry.
Context `{UnicodeDB}.

(** *** What [type.__setattr__] and [type.__delattr__] change *)

Lemma type_setattr_ok st c name v st1 :
  type_setattr st c name v = Ok st1
  → ∃ k, classes st !! c = Some k
      ∧ (name ∉ meta_properties (cls_meta k))
      ∧ st1 = PyState (<[c := set_dict (<[name := v]>) k]> (classes st))
                      (_class_constant_cache st).
Proof.
  unfold type_setattr. destruct (classes st !! c) as [k|]; [|done].
  case_bool_decide; [done|]. intros [= <-]. eauto.
Qed.

Lemma type_delattr_ok st c name st1 :
  type_delattr st c name = Ok st1
  → ∃ k, classes st !! c = Some k
      ∧ is_Some (cls_dict k !! name)
      ∧ st1 = PyState (<[c := set_dict (delete name) k]> (classes st))
                      (_class_constant_cache st).
Proof.
  unfold type_delattr. destruct (classes st !! c) as [k|]; [|done].
  case_bool_decide; [done|].
  destruct (cls_dict k !! name) eqn:Hown; [|done]. intros [= <-]. eauto.
Qed.

(** A change of the dictionary of one class, as the two functions above
    make it, seen from the reading side. *)
Lemma class_dict_update st c k f cache b :
  classes st !! c = Some k
  → class_dict (PyState (<[c := set_dict f k]> (classes st)) cache) b
    = if decide (b = c) then f (class_dict st c) else class_dict st b.
Proof.
  intros Hk. unfold class_dict; cbn. destruct (decide (b = c)) as [->|Hne].
  - by rewrite lookup_insert_eq, Hk.
  - by rewrite lookup_insert_ne.
Qed.

Lemma mro_update st c k f cache b :
  classes st !! c = Some k
  → mro (PyState (<[c := set_dict f k]> (classes st)) cache) b = mro st b.
Proof.
  intros Hk. unfold mro; cbn. destruct (decide (b = c)) as [->|Hne].
  - by rewrite lookup_insert_eq, Hk.
  - by rewrite lookup_insert_ne.
Qed.

Lemma lookup_along_ext st st' cs name :
  (∀ b, b ∈ cs → class_dict st' b !! name = class_dict st b !! name)
  → lookup_along st' cs name = lookup_along st cs name.
Proof.
  induction cs as [|b cs IH]; intros Hsame; [done|]. cbn.
  rewrite Hsame by left. rewrite IH; [done|].
  intros b' ?. apply Hsame. by right.
Qed.

(** After [cls.name = v] the class has the attribute, with that value,
    and its other attributes are what they were. *)
Lemma class_lookup_setattr st c name v st1 n :
  type_setattr st c name v = Ok st1
  → class_lookup st1 c n
    = if decide (n = name) then Some v else class_lookup st c n.
Proof.
  intros (k & Hk & _ & ->)%type_setattr_ok. unfold class_lookup.
  rewrite (mro_update _ _ _ _ _ _ Hk).
  destruct (decide (n = name)) as [->|Hne].
  - unfold mro. cbn [lookup_along].
    rewrite (class_dict_update _ _ _ _ _ _ Hk), decide_True by done.
    by rewrite lookup_insert_eq.
  - apply lookup_along_ext. intros b _.
    rewrite (class_dict_update _ _ _ _ _ _ Hk).
    destruct (decide (b = c)) as [->|]; [|done].
    by rewrite lookup_insert_ne.
Qed.

(** After [del cls.name] the other attributes of the class are what
    they were. *)
Lemma class_lookup_delattr st c name st1 n :
  type_delattr st c name = Ok st1
  → n ≠ name
  → class_lookup st1 c n = class_lookup st c n.
Proof.
  intros (k & Hk & _ & ->)%type_delattr_ok Hne. unfold class_lookup.
  rewrite (mro_update _ _ _ _ _ _ Hk).
  apply lookup_along_ext. intros b _.
  rewrite (class_dict_update _ _ _ _ _ _ Hk).
  destruct (decide (b = c)) as [->|]; [|done].
  by rewrite lookup_delete_ne.
Qed.

(** *** The shape of a successful [__setattr__] and [__delattr__] *)

Lemma setattr_ok st c name v st' :
  ConstClassMeta.__setattr__ st c name v = (Ok (), st')
  → ∃ st1 reg,
      type_setattr st c name v = Ok st1
      ∧ _class_constant_cache st !! c = Some reg
      ∧ classes st' = classes st1
      ∧ _class_constant_cache st'
        = if is_const name
          then <[c := reg ∪ {[name]}]> (_class_constant_cache st)
          else _class_constant_cache st.
Proof.
  unfold ConstClassMeta.__setattr__.
  destruct (type_setattr st c name v) as [st1|e] eqn:Hset; [|done].
  pose proof Hset as (k & Hk & _ & Hst1)%type_setattr_ok.
  assert (_class_constant_cache st1 = _class_constant_cache st) as Hcache
    by by rewrite Hst1.
  rewrite Hcache.
  destruct (_class_constant_cache st !! c) as [reg|] eqn:Hreg; [|done].
  destruct (is_const name) eqn:Hconst; cbn.
  - case_bool_decide as Hin; cbn; intros [_ <-]%pair_equal_spec;
      exists st1, reg;
      split_and!; try done; try (by cbn; rewrite Hcache).
    rewrite Hcache. symmetry. apply insert_id.
    rewrite Hreg. f_equal. symmetry. rewrite (comm_L (∪)).
    by apply subseteq_union_1_L, singleton_subseteq_l.
  - intros [_ <-]%pair_equal_spec. by exists st1, reg.
Qed.

Lemma delattr_ok st c name st' :
  ConstClassMeta.__delattr__ st c name = (Ok (), st')
  → ∃ st1 reg,
      type_delattr st c name = Ok st1
      ∧ _class_constant_cache st !! c = Some reg
      ∧ classes st' = classes st1
      ∧ _class_constant_cache st'
        = <[c := reg ∖ {[name]}]> (_class_constant_cache st).
Proof.
  unfold ConstClassMeta.__delattr__.
  destruct (type_delattr st c name) as [st1|e] eqn:Hdel; [|done].
  pose proof Hdel as (k & Hk & _ & Hst1)%type_delattr_ok.
  assert (_class_constant_cache st1 = _class_constant_cache st) as Hcache
    by by rewrite Hst1.
  rewrite Hcache.
  destruct (_class_constant_cache st !! c) as [reg|] eqn:Hreg; [|done].
  case_bool_decide as Hin; intros [_ <-]%pair_equal_spec; exists st1, reg;
    split_and!; try done; try (by cbn; rewrite Hcache).
  rewrite Hcache. symmetry. apply insert_id.
  rewrite Hreg. f_equal. symmetry.
  by apply difference_disjoint_L, disjoint_singleton_r.
Qed.

Lemma registered_lookup st c reg :
  _class_constant_cache st !! c = Some reg → registered st c = reg.
Proof. unfold registered. by intros ->. Qed.

(** Reading attributes depends on the classes only. *)
Lemma class_lookup_classes st st' c n :
  classes st' = classes st → class_lookup st' c n = class_lookup st c n.
Proof.
  intros Hsame. unfold class_lookup, mro. rewrite Hsame.
  apply lookup_along_ext. intros b _. unfold class_dict. by rewrite Hsame.
Qed.

Lemma getattr_classes st st' c n :
  classes st' = classes st → getattr st' c n = getattr st c n.
Proof. intros Hsame. unfold getattr. by rewrite (class_lookup_classes st). Qed.

Lemma lookup_along_is_Some st cs n :
  is_Some (lookup_along st cs n)
  ↔ ∃ b, b ∈ cs ∧ n ∈ dom (class_dict st b).
Proof.
  induction cs as [|b cs IH]; cbn.
  - split; [by intros [? ?] | by intros (? & ?%elem_of_nil & _)].
  - destruct (class_dict st b !! n) as [v|] eqn:Hb.
    + split; [|by eauto]. intros _. exists b. split; [left|].
      apply elem_of_dom. by eauto.
    + rewrite IH. split.
      * intros (b' & ? & ?). exists b'. split; [by right | done].
      * intros (b' & [->|?]%elem_of_cons & Hin); [|by eauto].
        apply elem_of_dom in Hin as [? Hin]. congruence.
Qed.

(** *** What [dir] lists *)

Lemma elem_of_dir st c n :
  n ∈ dir st c
  ↔ (∃ b, b ∈ mro st c ∧ n ∈ dom (class_dict st b)) ∨ n ∈ object_dir.
Proof.
  unfold dir. rewrite elem_of_union, elem_of_union_list, elem_of_list_to_set.
  apply or_iff_compat_r. split.
  - intros (X & (b & -> & ?)%list_elem_of_fmap & ?). eauto.
  - intros (b & ? & ?). exists (dom (class_dict st b)).
    split; [|done]. apply list_elem_of_fmap. eauto.
Qed.

Lemma object_dir_underscore :
  Forall (λ n, ∃ rest, n = 0x5F :: rest) object_dir.
Proof. repeat constructor; eexists; reflexivity. Qed.

Lemma object_dir_not_const n : n ∈ object_dir → is_const n = false.
Proof.
  intros Hn.
  destruct (proj1 (Forall_forall _ _) object_dir_underscore n Hn) as [rest ->].
  by eapply is_const_no_underscore.
Qed.

(** A constant name is listed by [dir] exactly when it is an attribute
    of the class. *)
Lemma dir_const_visible st c n :
  is_const n = true → n ∈ dir st c ↔ is_Some (class_lookup st c n).
Proof.
  intros Hconst. unfold class_lookup.
  rewrite elem_of_dir, lookup_along_is_Some. split; [|by left].
  intros [?|Hobj]; [done|]. apply object_dir_not_const in Hobj. congruence.
Qed.

(** *** The items that [as_dict] collects *)

Lemma read_constants_ok st c names :
  (∀ n, n ∈ names → is_Some (class_lookup st c n))
  → ∃ items, ConstClassMeta.read_constants st c names = Ok items
      ∧ items.*1 = names
      ∧ ∀ n v, (n, v) ∈ items ↔ n ∈ names ∧ class_lookup st c n = Some v.
Proof.
  induction names as [|n0 names IH]; intros Hres; cbn.
  - exists []. split_and!; try done. intros n v. split.
    + by intros ?%elem_of_nil.
    + by intros [?%elem_of_nil _].
  - destruct IH as (items & -> & Hfst & Hitems).
    { intros n ?. apply Hres. by right. }
    destruct (Hres n0 ltac:(left)) as [v0 Hv0]. unfold getattr. rewrite Hv0.
    exists ((n0, v0) :: items). split_and!; [done | by cbn; f_equal |].
    intros n v. rewrite !elem_of_cons, Hitems. split.
    + intros [[= -> ->]|[? ?]]; auto.
    + intros [[->|?] Hv]; [left | by right]. congruence.
Qed.

Lemma read_constants_names st c names items :
  ConstClassMeta.read_constants st c names = Ok items → items.*1 = names.
Proof.
  revert items. induction names as [|n0 names IH]; intros items; cbn.
  - by intros [= <-].
  - destruct (getattr st c n0); [|done].
    destruct (ConstClassMeta.read_constants st c names) as [items'|];
      [|done].
    intros [= <-]. cbn. f_equal. by apply IH.
Qed.

Lemma const_names_ok st c reg names :
  _class_constant_cache st !! c = Some reg
  → ConstClassMeta.const_names st c = Ok names
  → names = elements reg.
Proof.
  unfold ConstClassMeta.const_names, ConstClassMeta.as_dict. intros ->.
  destruct (ConstClassMeta.read_constants st c (elements reg)) as [items|]
    eqn:Hread; [|done].
  intros [= <-]. by eapply read_constants_names.
Qed.

(** *** The registry holds constant names only *)

Lemma new_cache_const st name ancestors namespace :
  cache_const st
  → cache_const (ConstClassMeta.__new__ st name ancestors namespace).2.
Proof.
  intros Hinv c reg n. cbn. 
  destruct (decide (c = fresh (dom (classes st)))) as [->|Hne].
  - rewrite lookup_insert_eq. intros [= <-]. by intros [? _]%elem_of_filter.
  - rewrite lookup_insert_ne by done. apply Hinv.
Qed.

Lemma setattr_cache_const st c name v :
  cache_const st → cache_const (ConstClassMeta.__setattr__ st c name v).2.
Proof.
  intros Hinv. unfold ConstClassMeta.__setattr__.
  destruct (type_setattr st c name v) as [st1|e] eqn:Hset; [|done].
  apply type_setattr_ok in Hset as (k & _ & _ & ->). cbn.
  destruct (_class_constant_cache st !! c) as [reg|] eqn:Hreg; [|done].
  destruct (is_const name) eqn:Hconst; [|done]. cbn.
  case_bool_decide; [done|]. cbn. intros c' reg' n. cbn.
  destruct (decide (c' = c)) as [->|Hne].
  - rewrite lookup_insert_eq.
    intros [= <-] [?|Hn%elem_of_singleton]%elem_of_union; [|by subst].
    by eapply Hinv.
  - rewrite lookup_insert_ne by done. apply Hinv.
Qed.

Lemma delattr_cache_const st c name :
  cache_const st → cache_const (ConstClassMeta.__delattr__ st c name).2.
Proof.
  intros Hinv. unfold ConstClassMeta.__delattr__.
  destruct (type_delattr st c name) as [st1|e] eqn:Hdel; [|done].
  apply type_delattr_ok in Hdel as (k & _ & _ & ->). cbn.
  destruct (_class_constant_cache st !! c) as [reg|] eqn:Hreg; [|done].
  case_bool_decide; [|done]. cbn. intros c' reg' n. cbn.
  destruct (decide (c' = c)) as [->|Hne].
  - rewrite lookup_insert_eq. intros [= <-] [? _]%elem_of_difference.
    by eapply Hinv.
  - rewrite lookup_insert_ne by done. apply Hinv.
Qed.

Lemma exec_cache_const st s : cache_const st → cache_const (exec st s).
Proof.
  intros Hinv. destruct s as [meta name ancestors namespace|c name v|c name];
    cbn.
  - unfold class_statement.
    destruct (metaclass_of st meta ancestors);
      [done | by apply new_cache_const].
  - unfold setattr_statement.
    destruct (classes st !! c) as [k|]; [|done].
    destruct (cls_meta k); [|by apply setattr_cache_const].
    destruct (type_setattr st c name v) as [st1|] eqn:Hset; [|done].
    by apply type_setattr_ok in Hset as (? & _ & _ & ->).
  - unfold delattr_statement.
    destruct (classes st !! c) as [k|]; [|done].
    destruct (cls_meta k); [|by apply delattr_cache_const].
    destruct (type_delattr st c name) as [st1|] eqn:Hdel; [|done].
    by apply type_delattr_ok in Hdel as (? & _ & _ & ->).
Qed.

Lemma run_cache_const prog st : cache_const st → cache_const (run prog st).
Proof.
  revert st. induction prog as [|s prog IH]; intros st Hinv; [done|].
  cbn. by apply IH, exec_cache_const.
Qed.

(** *** Reading a registry whose names all resolve *)

Lemma as_dict_resolving st c reg :
  _class_constant_cache st !! c = Some reg
  → (∀ n, n ∈ reg → is_Some (class_lookup st c n))
  → ∃ items, ConstClassMeta.as_dict st c = Ok items
      ∧ items.*1 = elements reg
      ∧ ∀ n v, (n, v) ∈ items ↔ n ∈ reg ∧ class_lookup st c n = Some v.
Proof.
  intros Hreg Hres. unfold ConstClassMeta.as_dict. rewrite Hreg.
  destruct (read_constants_ok st c (elements reg)) as (items & ? & ? & Hit).
  { intros n ?%elem_of_elements. by apply Hres. }
  exists items. split_and!; [done..|].
  intros n v. by rewrite Hit, elem_of_elements.
Qed.

Lemma const_names_resolving st c reg :
  _class_constant_cache st !! c = Some reg
  → (∀ n, n ∈ reg → is_Some (class_lookup st c n))
  → ConstClassMeta.const_names st c = Ok (elements reg).
Proof.
  intros Hreg Hres. unfold ConstClassMeta.const_names.
  destruct (as_dict_resolving st c reg Hreg Hres) as (items & -> & <- & _).
  done.
Qed.

Lemma getitem_unknown st c k reg item :
  classes st !! c = Some k
  → _class_constant_cache st !! c = Some reg
  → item ∉ reg
  → ConstClassMeta.__getitem__ st c item
    = Raise (ValueError
               (ConstClassMeta.no_such_constant (cls_name k) item reg)).
Proof.
  intros Hk Hreg Hout. unfold ConstClassMeta.__getitem__.
  rewrite Hreg, bool_decide_eq_false_2 by done. by rewrite Hk.
Qed.

Lemma getitem_known st c reg item v :
  _class_constant_cache st !! c = Some reg
  → item ∈ reg
  → class_lookup st c item = Some v
  → ConstClassMeta.__getitem__ st c item = Ok v.
Proof.
  intros Hreg Hin Hv. unfold ConstClassMeta.__getitem__, getattr.
  rewrite Hreg, Hv. by rewrite bool_decide_eq_true_2.
Qed.

(** A deletion that [type.__delattr__] refuses changes nothing. *)
Lemma delattr_not_own st c k name :
  classes st !! c = Some k
  → cls_dict k !! name = None
  → ConstClassMeta.__delattr__ st c name = (Raise (AttributeError name), st).
Proof.
  intros Hk Hown. unfold ConstClassMeta.__delattr__, type_delattr.
  rewrite Hk, Hown. by case_bool_decide.
Qed.
End Registry.

(** ** Registries in step with their classes

    A registered name stops being an attribute of its class only when a
    base class loses it. *)

Section InStep.
Context `{UnicodeDB}.

Lemma is_Some_class_lookup st c n :
  is_Some (class_lookup st c n)
  ↔ ∃ b, b ∈ mro st c ∧ n ∈ dom (class_dict st b).
Proof. apply lookup_along_is_Some. Qed.

Lemma resolve_mono st st' c n :
  (∀ b, b ∈ mro st c → b ∈ mro st' c)
  → (∀ b, dom (class_dict st b) ⊆ dom (class_dict st' b))
  → is_Some (class_lookup st c n) → is_Some (class_lookup st' c n).
Proof.
  rewrite !is_Some_class_lookup. intros Hmro Hdom (b & ? & ?).
  exists b. split; [by apply Hmro | by apply Hdom].
Qed.

Lemma type_setattr_mono st b name v st1 c n :
  type_setattr st b name v = Ok st1
  → is_Some (class_lookup st c n) → is_Some (class_lookup st1 c n).
Proof.
  intros (k & Hk & _ & ->)%type_setattr_ok. apply resolve_mono.
  - intros b'. by rewrite (mro_update _ _ _ _ _ _ Hk).
  - intros b'. rewrite (class_dict_update _ _ _ _ _ _ Hk).
    case_decide; [|done]. subst b'. rewrite dom_insert_L.
    apply union_subseteq_r.
Qed.

Lemma type_new_mono meta name ancestors namespace st c n :
  is_Some (class_lookup st c n)
  → is_Some (class_lookup (type_new meta name ancestors namespace st).2 c n).
Proof.
  cbn. set (c0 := fresh (dom (classes st))).
  assert (classes st !! c0 = None) as Hfresh by apply not_elem_of_dom, is_fresh.
  apply resolve_mono.
  - intros b. unfold mro; cbn. destruct (decide (c = c0)) as [->|Hne].
    + rewrite Hfresh, lookup_insert_eq. cbn.
      intros ->%list_elem_of_singleton. left.
    + by rewrite lookup_insert_ne.
  - intros b. unfold class_dict; cbn. destruct (decide (b = c0)) as [->|Hne].
    + rewrite Hfresh, dom_empty_L. apply empty_subseteq.
    + by rewrite lookup_insert_ne.
Qed.

Lemma type_delattr_other st b name st1 c n :
  type_delattr st b name = Ok st1
  → (c = b → n ≠ name)
  → (c ≠ b → b ∉ mro st c)
  → class_lookup st1 c n = class_lookup st c n.
Proof.
  intros (k & Hk & _ & ->)%type_delattr_ok Hown Hleaf. unfold class_lookup.
  rewrite (mro_update _ _ _ _ _ _ Hk). apply lookup_along_ext. intros b' Hb'.
  rewrite (class_dict_update _ _ _ _ _ _ Hk).
  destruct (decide (b' = b)) as [->|]; [|done].
  destruct (decide (c = b)) as [Heq|Hne].
  - by rewrite lookup_delete_ne by (symmetry; auto).
  - by destruct (Hleaf Hne).
Qed.

(** The metaclass of a class does not change. *)
Lemma update_meta st b k f c k' :
  classes st !! b = Some k
  → <[b := set_dict f k]> (classes st) !! c = Some k'
  → ∃ k0, classes st !! c = Some k0 ∧ cls_meta k0 = cls_meta k'.
Proof.
  intros Hk. destruct (decide (c = b)) as [->|Hne].
  - rewrite lookup_insert_eq. intros [= <-]. by exists k.
  - rewrite lookup_insert_ne by done. by exists k'.
Qed.

Lemma new_in_step st name ancestors namespace :
  in_step st
  → in_step (ConstClassMeta.__new__ st name ancestors namespace).2.
Proof.
  intros Hinv c k Hk Hmeta n.
  set (st1 := (type_new MetaConstClass name ancestors namespace st).2).
  assert (∀ m, class_lookup
                 (ConstClassMeta.__new__ st name ancestors namespace).2 c m
               = class_lookup st1 c m) as Hlook
    by (intros m; by apply class_lookup_classes).
  rewrite Hlook. unfold registered. cbn in Hk |- *.
  destruct (decide (c = fresh (dom (classes st)))) as [->|Hne].
  - rewrite lookup_insert_eq. cbn. intros [Hconst Hdir]%elem_of_filter.
    by apply dir_const_visible.
  - rewrite lookup_insert_ne in Hk by done.
    rewrite lookup_insert_ne by done. intros Hn.
    apply type_new_mono. by eapply Hinv.
Qed.

Lemma setattr_in_step st b name v :
  in_step st → in_step (ConstClassMeta.__setattr__ st b name v).2.
Proof.
  intros Hinv. unfold ConstClassMeta.__setattr__.
  destruct (type_setattr st b name v) as [st1|e] eqn:Hset; [|done].
  pose proof Hset as (kb & Hkb & _ & Hst1)%type_setattr_ok.
  assert (in_step st1) as Hinv1.
  { intros c k Hk Hmeta n Hn. rewrite Hst1 in Hk. cbn in Hk.
    destruct (update_meta _ _ _ _ _ _ Hkb Hk) as (k0 & Hk0 & Hm0).
    eapply type_setattr_mono; [done|].
    eapply Hinv; [done | congruence |]. by rewrite Hst1 in Hn. }
  assert (_class_constant_cache st1 = _class_constant_cache st) as Hcache
    by by rewrite Hst1.
  destruct (_class_constant_cache st1 !! b) as [reg|] eqn:Hreg; [|done].
  destruct (is_const name && negb (bool_decide (name ∈ reg))); [|done].
  cbn. intros c k Hk Hmeta n. unfold registered. cbn in Hk |- *.
  rewrite (class_lookup_classes st1) by done.
  destruct (decide (c = b)) as [->|Hne].
  - rewrite lookup_insert_eq. cbn.
    intros [Hn|Hn%elem_of_singleton]%elem_of_union.
    + eapply Hinv1; [done..|]. unfold registered. by rewrite Hreg.
    + subst n. rewrite (class_lookup_setattr _ _ _ _ _ _ Hset).
      rewrite decide_True by done. by eauto.
  - rewrite lookup_insert_ne by done. by eapply Hinv1.
Qed.

Lemma delattr_in_step st b name :
  in_step st
  → (∀ c, c ≠ b → b ∉ mro st c)
  → in_step (ConstClassMeta.__delattr__ st b name).2.
Proof.
  intros Hinv Hleaf. unfold ConstClassMeta.__delattr__.
  destruct (type_delattr st b name) as [st1|e] eqn:Hdel; [|done].
  pose proof Hdel as (kb & Hkb & _ & Hst1)%type_delattr_ok.
  assert (_class_constant_cache st1 = _class_constant_cache st) as Hcache
    by by rewrite Hst1.
  assert (∀ c k, classes st1 !! c = Some k → cls_meta k = MetaConstClass
                 → ∀ n, n ∈ registered st c → (c = b → n ≠ name)
                        → is_Some (class_lookup st1 c n)) as Hres.
  { intros c k Hk Hmeta n Hn Hown. rewrite Hst1 in Hk. cbn in Hk.
    destruct (update_meta _ _ _ _ _ _ Hkb Hk) as (k0 & Hk0 & Hm0).
    rewrite (type_delattr_other _ _ _ _ _ _ Hdel) by auto.
    eapply Hinv; [done | congruence | done]. }
  destruct (_class_constant_cache st1 !! b) as [reg|] eqn:Hreg.
  - case_bool_decide as Hin.
    + cbn. intros c k Hk Hmeta n. unfold registered. cbn in Hk |- *.
      rewrite (class_lookup_classes st1) by done.
      destruct (decide (c = b)) as [->|Hne].
      * rewrite lookup_insert_eq. cbn.
        intros [Hn Hname%not_elem_of_singleton]%elem_of_difference.
        eapply Hres; [done.. | | done].
        unfold registered. by rewrite <-Hcache, Hreg.
      * rewrite lookup_insert_ne by done. intros Hn.
        eapply Hres; [done.. | | done].
        unfold registered. by rewrite <-Hcache.
    + cbn. intros c k Hk Hmeta n Hn.
      eapply Hres; [done.. | |].
      * unfold registered in *. by rewrite <-Hcache.
      * intros -> ->. apply Hin. revert Hn. unfold registered.
        by rewrite Hreg.
  - cbn. intros c k Hk Hmeta n Hn.
    eapply Hres; [done.. | |].
    + unfold registered in *. by rewrite <-Hcache.
    + intros ->. revert Hn. unfold registered. rewrite Hreg. cbn.
      by intros ?%not_elem_of_empty.
Qed.

(** One statement keeps every registry in step with its class, unless
    it deletes an attribute of a class that has descendants. *)
Lemma exec_in_step st s :
  in_step st → deletes_from_leaf st s → in_step (exec st s).
Proof.
  intros Hinv Hleaf.
  destruct s as [meta name ancestors namespace|b name v|b name]; cbn.
  - unfold class_statement. destruct (metaclass_of st meta ancestors).
    + intros c k Hk Hmeta n Hn. apply type_new_mono.
      cbn in Hk. destruct (decide (c = fresh (dom (classes st)))) as [->|Hne].
      * rewrite lookup_insert_eq in Hk. by injection Hk as <-.
      * rewrite lookup_insert_ne in Hk by done. by eapply Hinv.
    + by apply new_in_step.
  - unfold setattr_statement.
    destruct (classes st !! b) as [kb|] eqn:Hkb; [|done].
    destruct (cls_meta kb) eqn:Hmb; [|by apply setattr_in_step].
    destruct (type_setattr st b name v) as [st1|] eqn:Hset; [|done].
    cbn. intros c k Hk Hmeta n Hn.
    pose proof Hset as (kb' & Hkb' & _ & Hst1)%type_setattr_ok.
    rewrite Hst1 in Hk. cbn in Hk.
    destruct (update_meta _ _ _ _ _ _ Hkb' Hk) as (k0 & Hk0 & Hm0).
    eapply type_setattr_mono; [done|].
    eapply Hinv; [done | congruence |]. by rewrite Hst1 in Hn.
  - unfold delattr_statement.
    destruct (classes st !! b) as [kb|] eqn:Hkb; [|done].
    destruct (cls_meta kb) eqn:Hmb; [|by apply delattr_in_step].
    destruct (type_delattr st b name) as [st1|] eqn:Hdel; [|done].
    cbn. intros c k Hk Hmeta n Hn.
    pose proof Hdel as (kb' & Hkb' & _ & Hst1)%type_delattr_ok.
    rewrite Hst1 in Hk. cbn in Hk.
    destruct (update_meta _ _ _ _ _ _ Hkb' Hk) as (k0 & Hk0 & Hm0).
    assert (c ≠ b) as Hne by (intros ->; congruence).
    rewrite (type_delattr_other _ _ _ _ _ _ Hdel); [|done|by auto].
    eapply Hinv; [done | congruence |]. by rewrite Hst1 in Hn.
Qed.

(** So does a program none of whose deletions takes an attribute from a
    class that has descendants. *)
Lemma run_in_step prog st :
  in_step st → deletes_from_leaves prog st → in_step (run prog st).
Proof.
  revert st. induction prog as [|s prog IH]; intros st Hinv Hleaf; [done|].
  destruct Hleaf as [? ?]. cbn. apply IH; [by apply exec_in_step | done].
Qed.
End InStep.


(** ** Copying the constants into a namespace *)

Section Apply.
Context `{UnicodeDB}.

Lemma dict_at_store d name v h d' :
  dict_at (store d name v h) d'
  = if decide (d' = d) then <[name := v]> (dict_at h d) else dict_at h d'.
Proof.
  unfold dict_at, store; cbn. destruct (decide (d' = d)) as [->|Hne].
  - by rewrite lookup_insert_eq.
  - by rewrite lookup_insert_ne.
Qed.

(** Writing one name does not change whether the object has another. *)
Lemma hasattr_store_ne d name v h o n :
  n ≠ name → hasattr (store d name v h) o n = hasattr h o n.
Proof.
  intros Hne. destruct o as [d'|d']; [|done]. cbn.
  rewrite dict_at_store. destruct (decide (d' = d)) as [->|]; [|done].
  by rewrite lookup_insert_ne.
Qed.

(** No attribute of the type [dict] has the name of a constant. *)
Lemma dict_type_dir_not_const :
  Forall (λ n, is_const n = false) dict_type_dir.
Proof. repeat constructor. Qed.

Lemma hasattr_dict_const h d n :
  is_const n = true → hasattr h (PyDict d) n = false.
Proof.
  intros Hconst. cbn. apply bool_decide_eq_false_2. intros Hin.
  pose proof (proj1 (Forall_forall _ _) dict_type_dir_not_const n Hin).
  congruence.
Qed.

Lemma module_type_dir_not_const :
  Forall (λ n, is_const n = false) module_type_dir.
Proof. repeat constructor. Qed.

(** On a module, a constant name is an attribute exactly when it is a
    variable of the module. *)
Lemma hasattr_module_const h d n :
  is_const n = true
  → hasattr h (PyModule d) n = bool_decide (is_Some (dict_at h d !! n)).
Proof.
  intros Hconst. cbn. rewrite bool_decide_eq_false_2; [done|]. intros Hin.
  pose proof (proj1 (Forall_forall _ _) module_type_dir_not_const n Hin).
  congruence.
Qed.

(** The loop of [__apply] when every name resolves and the assignment
    stores into the dictionary at [d]: the loop ends normally; a name
    is written when [override] is set or the object had no such
    attribute, and nothing else changes. *)
Lemma apply_loop_spec st c o override d names h :
  NoDup names
  → (∀ n, n ∈ names → is_Some (class_lookup st c n))
  → ∃ h',
      ConstClassMeta.apply_loop st c o override
        (λ name v h, (Ok (), store d name v h)) names h = (Ok (), h')
      ∧ sys_modules h' = sys_modules h
      ∧ (∀ d', d' ≠ d → dict_at h' d' = dict_at h d')
      ∧ ∀ n, dict_at h' d !! n
             = if bool_decide (n ∈ names)
                  && (override || negb (hasattr h o n))
               then class_lookup st c n
               else dict_at h d !! n.
Proof.
  intros Hnodup. revert h.
  induction Hnodup as [|n0 names Hfresh Hnodup IH]; intros h Hres.
  - exists h. by split_and!.
  - cbn [ConstClassMeta.apply_loop]. unfold getattr.
    destruct (Hres n0 ltac:(left)) as [v0 Hv0]. rewrite Hv0.
    assert (∀ n, n ∈ names → is_Some (class_lookup st c n)) as Hres'
      by (intros n ?; apply Hres; by right).
    destruct (negb override && hasattr h o n0) eqn:Hskip.
    + destruct (IH h Hres') as (h' & -> & ? & ? & Hd).
      exists h'. split_and!; [done..|]. intros n. rewrite Hd.
      destruct (decide (n = n0)) as [->|Hne].
      * rewrite (bool_decide_eq_false_2 (n0 ∈ names)) by done.
        rewrite bool_decide_eq_true_2 by left.
        apply andb_prop in Hskip as [Hov Hhas].
        apply negb_true_iff in Hov. by rewrite Hov, Hhas.
      * replace (bool_decide (n ∈ n0 :: names))
          with (bool_decide (n ∈ names)); [done|].
        apply bool_decide_ext. rewrite elem_of_cons.
           split; [by right | by intros [?|?]].
    + destruct (IH (store d n0 v0 h) Hres') as (h' & -> & ? & Hoth & Hd).
      exists h'. split_and!; [done.. | |].
      * intros d' Hne. rewrite (Hoth d' Hne), dict_at_store.
        by rewrite decide_False.
      * intros n. rewrite Hd, dict_at_store, decide_True by done.
        destruct (decide (n = n0)) as [->|Hne].
        -- rewrite (bool_decide_eq_false_2 (n0 ∈ names)) by done.
           rewrite bool_decide_eq_true_2 by left. cbn.
           rewrite lookup_insert_eq.
           destruct override; [done|]. cbn in Hskip. cbn.
           by rewrite Hskip.
        -- rewrite hasattr_store_ne, lookup_insert_ne by done.
           replace (bool_decide (n ∈ n0 :: names))
             with (bool_decide (n ∈ names)); [done|].
           apply bool_decide_ext. rewrite elem_of_cons.
           split; [by right | by intros [?|?]].
Qed.
End Apply.

Section ApplyModes.
Context `{UnicodeDB}.

(** [apply_to_module]: with [override] unset, a registered name that is
    already a variable of the module keeps its value. *)
Lemma apply_to_module_spec st c reg module_name d override h :
  sys_modules h !! module_name = Some d
  → _class_constant_cache st !! c = Some reg
  → (∀ n, n ∈ reg → is_const n = true)
  → (∀ n, n ∈ reg → is_Some (class_lookup st c n))
  → ∃ h',
      ConstClassMeta.apply_to_module st c module_name override h
      = (Ok (), h')
      ∧ (∀ d', d' ≠ d → dict_at h' d' = dict_at h d')
      ∧ ∀ n, dict_at h' d !! n
             = if bool_decide (n ∈ reg)
                  && (override || bool_decide (dict_at h d !! n = None))
               then class_lookup st c n
               else dict_at h d !! n.
Proof.
  intros Hmod Hreg Hconst Hres.
  unfold ConstClassMeta.apply_to_module, import_module. rewrite Hmod.
  unfold ConstClassMeta.__apply. rewrite Hreg.
  destruct (apply_loop_spec st c (PyModule d) override d (elements reg) h)
    as (h' & Hloop & _ & Hoth & Hd).
  { apply NoDup_elements. }
  { intros n ?%elem_of_elements. by apply Hres. }
  exists h'. split_and!; [exact Hloop | done |].
  intros n. rewrite Hd.
  rewrite (bool_decide_ext _ _ (elem_of_elements reg n)).
  case_bool_decide as Hin; [|done]. cbn [andb].
  rewrite hasattr_module_const by by apply Hconst.
  replace (negb (bool_decide (is_Some (dict_at h d !! n))))
    with (bool_decide (dict_at h d !! n = None)); [done|].
  destruct (dict_at h d !! n) eqn:Hn.
  - rewrite bool_decide_eq_false_2 by done.
    by rewrite bool_decide_eq_true_2 by eauto.
  - rewrite bool_decide_eq_true_2 by done.
    rewrite bool_decide_eq_false_2; [done|]. by intros [? ?].
Qed.


(** Without stack frames [apply] raises the error of its guard and
    writes nothing. *)
Lemma apply_without_frames st c (local override : bool) h :
  ConstClassMeta.apply st c None local override h
  = (Raise (RuntimeError (pystr "Cannot retrieve current frame")), h).
Proof. reflexivity. Qed.

Lemma access_namespace_consts_without_frames (local : bool) h :
  access_namespace_consts None local h
  = Raise (RuntimeError (pystr "Cannot retrieve current frame")).
Proof. reflexivity. Qed.
End ApplyModes.

(** * The claims of the specification *)

Section Claims.
Context `{UnicodeDB}.

(** C2, as amended.  [is_const name] holds exactly when [name] is a
    valid identifier, contains an uppercase character, has no cased
    character that is not uppercase, and does not start with an
    underscore.  In particular it holds of every identifier made of
    uppercase ASCII letters and digits, and it fails on the empty
    string. *)
Theorem is_const_characterised :
  (∀ name,
     is_const name = true
     ↔ isidentifier name = true
       ∧ (∃ c, c ∈ name ∧ Py_UNICODE_ISUPPER c = true)
       ∧ (∀ c, c ∈ name → is_cased c = true → Py_UNICODE_ISUPPER c = true)
       ∧ startswith name (pystr "_") = false)
  ∧ (∀ name,
       isidentifier name = true
       → (∀ c, c ∈ name → in_range 65 90 c || in_range 48 57 c = true)
       → is_const name = true)
  ∧ is_const [] = false.
Proof.
  split_and!; [apply is_const_true | apply is_const_ascii_upper | done].
Qed.

(** C5.  The set that [__new__] registers for the new class is exactly
    the set of the names that [dir] lists for it and [is_const]
    accepts; [dir] lists the names of the class body, the names of the
    dictionaries of all ancestors and the names of [object]; so a
    constant name is registered exactly when it is an attribute visible
    on the new class. *)
Theorem new_registers_visible_constants st name ancestors namespace :
  let new := ConstClassMeta.__new__ st name ancestors namespace in
  classes new.2 !! new.1
    = Some (PyClass name MetaConstClass ancestors namespace)
  ∧ (∀ n, n ∈ registered new.2 new.1
          ↔ n ∈ dir new.2 new.1 ∧ is_const n = true)
  ∧ (∀ n, n ∈ dir new.2 new.1
          ↔ n ∈ dom namespace
            ∨ (∃ b, b ∈ ancestors ∧ n ∈ dom (class_dict st b))
            ∨ n ∈ object_dir)
  ∧ (∀ n, n ∈ registered new.2 new.1
          ↔ is_Some (class_lookup new.2 new.1 n) ∧ is_const n = true).
Proof.
  cbn zeta. cbn [ConstClassMeta.__new__ type_new fst snd].
  set (c := fresh (dom (classes st))).
  set (k := PyClass name MetaConstClass ancestors namespace).
  set (st1 := PyState (<[c := k]> (classes st)) (_class_constant_cache st)).
  set (st' := PyState _ _).
  assert (classes st' !! c = Some k) as Hk by apply lookup_insert_eq.
  assert (classes st !! c = None) as Hfresh
    by apply not_elem_of_dom, is_fresh.
  assert (dir st' c = dir st1 c) as Hdir by done.
  assert (∀ n, n ∈ registered st' c ↔ n ∈ dir st' c ∧ is_const n = true)
    as Hreg.
  { intros n. unfold registered. cbn. rewrite lookup_insert_eq. cbn.
    rewrite elem_of_filter, Hdir. tauto. }
  split_and!; [done | done | |].
  - intros n. rewrite elem_of_dir. unfold mro. rewrite Hk. cbn [cls_mro k].
    assert (class_dict st' c = namespace) as Hown
      by (unfold class_dict; by rewrite Hk).
    assert (∀ b, b ≠ c → class_dict st' b = class_dict st b) as Hother.
    { intros b Hne. unfold class_dict. cbn. by rewrite lookup_insert_ne. }
    split.
    + intros [(b & [->|Hb]%elem_of_cons & Hn)|?]; [| |by auto].
      * left. by rewrite <-Hown.
      * destruct (decide (b = c)) as [->|Hne].
        -- left. by rewrite <-Hown.
        -- right; left. exists b. by rewrite <-(Hother b Hne).
    + intros [Hn|[(b & Hb & Hn)|?]]; [| |by auto].
      * left. exists c. split; [left | by rewrite Hown].
      * left. exists b. split; [by right|].
        destruct (decide (b = c)) as [->|Hne]; [|by rewrite Hother].
        unfold class_dict in Hn. rewrite Hfresh in Hn.
        by apply elem_of_dom in Hn as [? ?].
  - intros n. rewrite Hreg. split.
    + intros [? ?]. split; [|done]. by apply dir_const_visible.
    + intros [? ?]. split; [|done]. by apply dir_const_visible.
Qed.

(** C9.  After any sequence of class definitions, attribute
    assignments and attribute deletions, every name registered for any
    class satisfies [is_const]. *)
Theorem registry_holds_constants_only prog c :
  set_Forall (λ n, is_const n = true) (registered (run prog initial) c).
Proof.
  intros n. unfold registered.
  destruct (_class_constant_cache (run prog initial) !! c) as [reg|] eqn:Hc;
    cbn; [|by intros ?%not_elem_of_empty].
  intros Hn. eapply (run_cache_const prog initial); [|done..].
  by intros c' reg' n'.
Qed.

(** C4, as amended.  For a class with registered set [reg]:
    [class[item]] returns the value of the attribute when [item] is in
    [reg] and is still an attribute of the class; when [item] is not in
    [reg] it raises the [ValueError] whose text ends with the registered
    names, each of them once and no other, joined by a comma. *)
Theorem getitem_value_or_unknown st c k reg item :
  classes st !! c = Some k
  → _class_constant_cache st !! c = Some reg
  → (item ∈ reg
     → ∀ v, class_lookup st c item = Some v
            → ConstClassMeta.__getitem__ st c item = Ok v)
    ∧ (item ∉ reg
       → ConstClassMeta.__getitem__ st c item
         = Raise (ValueError
                    (pystr "Class " ++ cls_name k
                     ++ pystr " does not contain a constant named " ++ item
                     ++ pystr ". Existing constants are "
                     ++ str_join (pystr ", ") (elements reg))))
    ∧ NoDup (elements reg)
    ∧ (∀ n, n ∈ elements reg ↔ n ∈ reg).
Proof.
  intros Hk Hreg. split_and!.
  - intros Hin v Hv. by eapply getitem_known.
  - intros Hout. by rewrite (getitem_unknown st c k reg).
  - apply NoDup_elements.
  - intros n. apply elem_of_elements.
Qed.

(** C6, as amended.  A successful [cls.name = v] performs the
    assignment of [type.__setattr__]; afterwards the registered set is
    the old one with [name] added when [is_const name], and the old one
    otherwise; a constant so assigned is returned by [cls[name]]; and
    it is listed by [const_names] provided every name registered before
    was still an attribute of the class. *)
Theorem setattr_registers st c name v st' :
  ConstClassMeta.__setattr__ st c name v = (Ok (), st')
  → (∃ st1, type_setattr st c name v = Ok st1 ∧ classes st' = classes st1)
    ∧ class_lookup st' c name = Some v
    ∧ registered st' c
      = (if is_const name then registered st c ∪ {[name]}
         else registered st c)
    ∧ (is_const name = true → ConstClassMeta.__getitem__ st' c name = Ok v)
    ∧ (is_const name = true
       → all_resolve st c
       → ∃ names, ConstClassMeta.const_names st' c = Ok names
                  ∧ name ∈ names).
Proof.
  intros (st1 & reg & Hset & Hreg & Hcls & Hcache)%setattr_ok.
  assert (∀ n, class_lookup st' c n
               = if decide (n = name) then Some v else class_lookup st c n)
    as Hlook.
  { intros n. rewrite (class_lookup_classes st1) by done.
    by eapply class_lookup_setattr. }
  assert (class_lookup st' c name = Some v) as Hv
    by by rewrite Hlook, decide_True.
  assert (is_const name = true
          → _class_constant_cache st' !! c = Some (reg ∪ {[name]})) as Hreg'.
  { intros Hconst. rewrite Hcache, Hconst. apply lookup_insert_eq. }
  split_and!; [by eauto | done | | |].
  - unfold registered. rewrite Hcache, Hreg.
    destruct (is_const name); [by rewrite lookup_insert_eq | by rewrite Hreg].
  - intros Hconst.
    eapply getitem_known; [by apply Hreg' | | done].
    apply elem_of_union_r, elem_of_singleton_2. reflexivity.
  - intros Hconst Hres. exists (elements (reg ∪ {[name]})). split.
    + apply const_names_resolving; [by apply Hreg'|].
      intros n Hn. rewrite Hlook. case_decide; [by eauto|].
      apply Hres. rewrite (registered_lookup st c reg Hreg).
      apply elem_of_union in Hn as [?|?%elem_of_singleton]; done.
    + apply elem_of_elements, elem_of_union_r, elem_of_singleton_2.
      reflexivity.
Qed.

(** C7.  A successful [del cls.name] performs the deletion of
    [type.__delattr__], which takes the name out of the dictionary of
    the class; afterwards the registered set is the old one without
    [name], [const_names] does not list it, and [cls[name]] raises the
    unknown-constant [ValueError]. *)
Theorem delattr_unregisters st c name st' :
  ConstClassMeta.__delattr__ st c name = (Ok (), st')
  → (∃ st1, type_delattr st c name = Ok st1 ∧ classes st' = classes st1)
    ∧ class_dict st' c = delete name (class_dict st c)
    ∧ registered st' c = registered st c ∖ {[name]}
    ∧ (∀ names, ConstClassMeta.const_names st' c = Ok names → name ∉ names)
    ∧ (all_resolve st c
       → ConstClassMeta.const_names st' c
         = Ok (elements (registered st c ∖ {[name]})))
    ∧ ∃ k, classes st' !! c = Some k
           ∧ ConstClassMeta.__getitem__ st' c name
             = Raise (ValueError
                        (ConstClassMeta.no_such_constant (cls_name k) name
                           (registered st c ∖ {[name]}))).
Proof.
  intros (st1 & reg & Hdel & Hreg & Hcls & Hcache)%delattr_ok.
  pose proof Hdel as (k & Hk & _ & Hst1)%type_delattr_ok.
  assert (_class_constant_cache st' !! c = Some (reg ∖ {[name]})) as Hreg'
    by (rewrite Hcache; apply lookup_insert_eq).
  rewrite (registered_lookup st c reg Hreg).
  split_and!; [by eauto | | by apply registered_lookup | | |].
  - unfold class_dict at 1. rewrite Hcls, Hst1. cbn.
    rewrite lookup_insert_eq. cbn. unfold class_dict. by rewrite Hk.
  - intros names ->%(const_names_ok _ _ _ _ Hreg').
    rewrite elem_of_elements, elem_of_difference, elem_of_singleton. tauto.
  - intros Hres. apply const_names_resolving; [done|].
    intros n [Hn Hne%not_elem_of_singleton]%elem_of_difference.
    rewrite (class_lookup_classes st1) by done.
    rewrite (class_lookup_delattr st c name st1) by done.
    apply Hres. by rewrite (registered_lookup st c reg Hreg).
  - exists (set_dict (delete name) k). split.
    + rewrite Hcls, Hst1. cbn. apply lookup_insert_eq.
    + eapply (getitem_unknown st' c (set_dict (delete name) k)); [|done|].
      * rewrite Hcls, Hst1. cbn. apply lookup_insert_eq.
      * rewrite elem_of_difference, elem_of_singleton. tauto.
Qed.

(** C8, as amended.  For a class all of whose registered names are
    still attributes of it, [as_dict] returns one item per registered
    name, with the value the attribute has at the time of the call;
    and after [cls.name = v] on a registered name, [as_dict] returns
    [v] for [name] and the unchanged values for the other names. *)
Theorem as_dict_reads_live st c reg :
  _class_constant_cache st !! c = Some reg
  → all_resolve st c
  → (∃ items,
       ConstClassMeta.as_dict st c = Ok items
       ∧ NoDup items.*1
       ∧ ∀ n w, (n, w) ∈ items ↔ n ∈ reg ∧ class_lookup st c n = Some w)
    ∧ ∀ name v st',
        name ∈ reg
        → ConstClassMeta.__setattr__ st c name v = (Ok (), st')
        → ∃ items',
            ConstClassMeta.as_dict st' c = Ok items'
            ∧ NoDup items'.*1
            ∧ ∀ n w, (n, w) ∈ items'
                     ↔ n ∈ reg
                       ∧ if decide (n = name) then w = v
                         else class_lookup st c n = Some w.
Proof.
  intros Hreg Hres. unfold all_resolve in Hres.
  rewrite (registered_lookup st c reg Hreg) in Hres.
  split.
  - destruct (as_dict_resolving st c reg Hreg Hres) as (items & ? & Hn & ?).
    exists items. split_and!; [done | | done].
    rewrite Hn. apply NoDup_elements.
  - intros name v st' Hin (st1 & reg0 & Hset & Hreg0 & Hcls & Hcache)%setattr_ok.
    assert (reg0 = reg) as -> by congruence.
    assert (∀ n, class_lookup st' c n
                 = if decide (n = name) then Some v
                   else class_lookup st c n) as Hlook.
    { intros n. rewrite (class_lookup_classes st1) by done.
      by eapply class_lookup_setattr. }
    assert (_class_constant_cache st' !! c = Some reg) as Hreg'.
    { rewrite Hcache. destruct (is_const name); [|done].
      rewrite lookup_insert_eq. f_equal. rewrite (comm_L (∪)).
      by apply subseteq_union_1_L, singleton_subseteq_l. }
    destruct (as_dict_resolving st' c reg Hreg') as (items & ? & Hn & Hit).
    { intros n ?. rewrite Hlook. case_decide; [by eauto | by apply Hres]. }
    exists items. split_and!; [done | |].
    + rewrite Hn. apply NoDup_elements.
    + intros n w. rewrite Hit, Hlook.
      case_decide; [|done]. split; intros [? ?]; split; congruence.
Qed.

(** C10.  When [del cls.name] raises, the cache is what it was before,
    and so is the registered set of the class; and when the deletion of
    [type.__delattr__] is what raised, as it does for a name that is
    not in the dictionary of the class itself, its exception is the one
    raised and the state is unchanged. *)
Theorem failed_delattr_keeps_registry st c name e st' :
  ConstClassMeta.__delattr__ st c name = (Raise e, st')
  → _class_constant_cache st' = _class_constant_cache st
    ∧ registered st' c = registered st c
    ∧ (∀ e', type_delattr st c name = Raise e' → e = e' ∧ st' = st).
Proof.
  unfold ConstClassMeta.__delattr__.
  destruct (type_delattr st c name) as [st1|e'] eqn:Hdel.
  - apply type_delattr_ok in Hdel as (k & Hk & [w Hown] & ->). cbn.
    destruct (_class_constant_cache st !! c) as [reg|] eqn:Hreg.
    + by case_bool_decide.
    + by intros [_ <-]%pair_equal_spec.
  - intros [[= <-] <-]%pair_equal_spec.
    split_and!; [done | done |]. by intros ? [= <-].
Qed.
End Claims.

Section ApplyClaims.
Context `{UnicodeDB}.

(** C3, where the code departs from it.  When the frame of [apply] has
    no caller, [apply] writes nothing, but the exception it raises is
    the [AttributeError] of reading [f_locals] or [f_globals] on
    [None], not the [RuntimeError] of its guard. *)
Theorem apply_without_caller_frame st c locals globals
    (local override : bool) h :
  ConstClassMeta.apply st c (Some (Frame locals globals None))
    local override h
  = (Raise (AttributeError
              (pystr (if local then "f_locals" else "f_globals"))), h).
Proof. reflexivity. Qed.
End ApplyClaims.

(** ** The claims on the session *)

Section Session.
#[local] Existing Instance ucd_tabulated.

(** Some names, through the rule. *)
Example is_const_PI : is_const PI = true.
Proof. reflexivity. Qed.

Example is_const_helper : is_const helper = false.
Proof. reflexivity. Qed.

Example is_const_leading_underscore : is_const (pystr "_PI") = false.
Proof. reflexivity. Qed.

Example is_const_leading_digit : is_const (pystr "1A") = false.
Proof. reflexivity. Qed.

Example is_const_with_space : is_const (pystr "A B") = false.
Proof. reflexivity. Qed.

Example is_const_letter_and_ideograph : is_const [65; 0x4E2D] = true.
Proof. reflexivity. Qed.

(** The session defined three classes; [PI] is registered for
    [MathConsts] and, inherited, for [Derived]. *)
Example session_classes :
  dom (classes defined) = {[BaseConstClass; MathConsts; Derived]}
  ∧ registered defined BaseConstClass = ∅
  ∧ registered defined MathConsts = {[PI]}
  ∧ registered defined Derived = {[PI]}
  ∧ ConstClassMeta.const_names defined MathConsts = Ok [PI].
Proof. by vm_compute. Qed.

(** The session deletes nothing, so its registries are in step. *)
Example session_in_step : in_step defined.
Proof.
  apply run_in_step; [|by cbn].
  intros c k Hk. cbn in Hk. by rewrite lookup_empty in Hk.
Qed.

(** C2, counterexample.  The one-character name U+4E2D is a valid
    identifier without any cased character and without a leading
    underscore, so the rule as the specification words it accepts the
    name; [is_const] rejects it. *)
Lemma uncased_identifier_rejected :
  is_const [0x4E2D] = false ∧ is_const_spec [0x4E2D].
Proof.
  split; [reflexivity|]. split_and!; [reflexivity | | reflexivity].
  intros c ->%list_elem_of_singleton. by vm_compute.
Qed.

(** C4, witness: [MathConsts["PI"]] and [MathConsts["helper"]]. *)
Lemma getitem_in_session :
  ConstClassMeta.__getitem__ defined MathConsts PI = Ok (VFloat 314159 (-5))
  ∧ ConstClassMeta.__getitem__ defined MathConsts helper
    = Raise (ValueError (pystr
        "Class MathConsts does not contain a constant named helper. Existing constants are PI")).
Proof.
  pose (k := PyClass (pystr "MathConsts") MetaConstClass [BaseConstClass]
               {[ PI := VFloat 314159 (-5); helper := VObj 1 ]}).
  assert (classes defined !! MathConsts = Some k) as Hk by by vm_compute.
  assert (_class_constant_cache defined !! MathConsts = Some {[PI]})
    as Hreg by by vm_compute.
  split.
  - apply (getitem_value_or_unknown defined MathConsts k {[PI]} PI Hk Hreg);
      by vm_compute.
  - destruct (getitem_value_or_unknown defined MathConsts k {[PI]} helper
                Hk Hreg) as (_ & -> & _); by vm_compute.
Defined.

(** C4, counterexample.  After [del MathConsts.PI] the name [PI] is
    still registered for [Derived], and [Derived["PI"]] neither returns
    a value nor raises the unknown-constant error. *)
Lemma getitem_stale :
  PI ∈ registered stale Derived
  ∧ ConstClassMeta.__getitem__ stale Derived PI = Raise (AttributeError PI).
Proof. by vm_compute. Qed.

(** C6, witness: [MathConsts.E = 2.71828]. *)
Lemma setattr_in_session :
  let st' :=
    (ConstClassMeta.__setattr__ defined MathConsts E (VFloat 271828 (-5))).2
  in
  registered st' MathConsts = {[PI]} ∪ {[E]}
  ∧ ConstClassMeta.__getitem__ st' MathConsts E = Ok (VFloat 271828 (-5))
  ∧ ∃ names, ConstClassMeta.const_names st' MathConsts = Ok names
             ∧ E ∈ names.
Proof.
  intros st'.
  assert (ConstClassMeta.__setattr__ defined MathConsts E
            (VFloat 271828 (-5)) = (Ok (), st')) as Hset
    by (vm_compute; reflexivity).
  pose proof (setattr_registers defined MathConsts E _ st' Hset)
    as (_ & _ & Hreg & Hget & Hnames).
  split_and!.
  - rewrite Hreg. vm_compute. reflexivity.
  - apply Hget. reflexivity.
  - apply Hnames; [reflexivity|]. intros n Hn.
    assert (registered defined MathConsts = {[PI]}) as Hpi
      by (vm_compute; reflexivity).
    rewrite Hpi in Hn. apply elem_of_singleton in Hn as ->.
    vm_compute. eauto.
Defined.

(** C6, counterexample.  On the class [Derived] of the stale state,
    [Derived.E = 2.71828] succeeds and registers [E], and yet
    [const_names] does not list [E]: it raises. *)
Lemma setattr_stale_names :
  (ConstClassMeta.__setattr__ stale Derived E (VFloat 271828 (-5))).1 = Ok ()
  ∧ is_const E = true
  ∧ E ∈ registered
          (ConstClassMeta.__setattr__ stale Derived E (VFloat 271828 (-5))).2
          Derived
  ∧ ConstClassMeta.const_names
      (ConstClassMeta.__setattr__ stale Derived E (VFloat 271828 (-5))).2
      Derived
    = Raise (AttributeError PI).
Proof. by vm_compute. Qed.

(** C7, witness: [del MathConsts.PI]. *)
Lemma delattr_in_session :
  let st' := (ConstClassMeta.__delattr__ defined MathConsts PI).2 in
  class_dict st' MathConsts = {[ helper := VObj 1 ]}
  ∧ registered st' MathConsts = ∅
  ∧ ConstClassMeta.const_names st' MathConsts = Ok []
  ∧ ConstClassMeta.__getitem__ st' MathConsts PI
    = Raise (ValueError (pystr
        "Class MathConsts does not contain a constant named PI. Existing constants are ")).
Proof.
  intros st'.
  assert (ConstClassMeta.__delattr__ defined MathConsts PI = (Ok (), st'))
    as Hdel by (vm_compute; reflexivity).
  pose proof (delattr_unregisters defined MathConsts PI st' Hdel)
    as (_ & Hdict & Hreg & _ & Hnames & k & Hk & Hget).
  split_and!.
  - rewrite Hdict. vm_compute. reflexivity.
  - rewrite Hreg. vm_compute. reflexivity.
  - rewrite Hnames.
    + vm_compute. reflexivity.
    + intros n Hn.
      assert (registered defined MathConsts = {[PI]}) as Hpi
        by (vm_compute; reflexivity).
      rewrite Hpi in Hn. apply elem_of_singleton in Hn as ->.
      vm_compute. eauto.
  - rewrite Hget.
    assert (classes st' !! MathConsts
            = Some (PyClass (pystr "MathConsts") MetaConstClass
                      [BaseConstClass] {[ helper := VObj 1 ]})) as Hk'
      by (vm_compute; reflexivity).
    rewrite Hk' in Hk. injection Hk as <-. vm_compute. reflexivity.
Defined.

(** C8, witness: [MathConsts.as_dict()], before and after
    [MathConsts.PI = 3]. *)
Lemma as_dict_in_session :
  ConstClassMeta.as_dict defined MathConsts = Ok [(PI, VFloat 314159 (-5))]
  ∧ ∃ items,
      ConstClassMeta.as_dict
        (ConstClassMeta.__setattr__ defined MathConsts PI (VInt 3)).2
        MathConsts = Ok items
      ∧ ∀ n w, (n, w) ∈ items ↔ n = PI ∧ w = VInt 3.
Proof.
  assert (_class_constant_cache defined !! MathConsts = Some {[PI]})
    as Hreg by (vm_compute; reflexivity).
  assert (all_resolve defined MathConsts) as Hres.
  { intros n Hn. rewrite (registered_lookup _ _ _ Hreg) in Hn.
    apply elem_of_singleton in Hn as ->. vm_compute. eauto. }
  pose proof (as_dict_reads_live defined MathConsts {[PI]} Hreg Hres)
    as [(items & Hitems & _ & _) Hlive].
  split.
  - rewrite Hitems. revert Hitems. vm_compute. by intros [= <-].
  - set (st' := (ConstClassMeta.__setattr__ defined MathConsts PI
                   (VInt 3)).2).
    assert (ConstClassMeta.__setattr__ defined MathConsts PI (VInt 3)
            = (Ok (), st')) as Hset by (vm_compute; reflexivity).
    destruct (Hlive PI (VInt 3) st') as (items' & Hitems' & _ & Hin);
      [by apply elem_of_singleton | exact Hset |].
    exists items'. split; [done|]. intros n w. rewrite Hin.
    rewrite elem_of_singleton. split.
    + intros [-> Hw]. split; [reflexivity|].
      destruct (decide (PI = PI)); [exact Hw | congruence].
    + intros [-> ->]. split; [reflexivity|].
      destruct (decide (PI = PI)); [reflexivity | congruence].
Defined.

(** C8, counterexample.  In the stale state [PI] is registered for
    [Derived], and [Derived.as_dict()] returns no mapping: it raises. *)
Lemma as_dict_stale :
  PI ∈ registered stale Derived
  ∧ ConstClassMeta.as_dict stale Derived = Raise (AttributeError PI).
Proof. by vm_compute. Qed.

(** C10, witness: [del Derived.PI], where [PI] is inherited. *)
Lemma failed_delattr_in_session :
  ConstClassMeta.__delattr__ defined Derived PI
  = (Raise (AttributeError PI), defined)
  ∧ registered (ConstClassMeta.__delattr__ defined Derived PI).2 Derived
    = {[PI]}.
Proof.
  assert (ConstClassMeta.__delattr__ defined Derived PI
          = (Raise (AttributeError PI),
             (ConstClassMeta.__delattr__ defined Derived PI).2)) as Hdel
    by (vm_compute; reflexivity).
  pose proof (failed_delattr_keeps_registry defined Derived PI _ _ Hdel)
    as (_ & Hreg & Hsame).
  destruct (Hsame (AttributeError PI)) as [_ Hst];
    [vm_compute; reflexivity|].
  split.
  - etrans; [exact Hdel|]. rewrite Hst. reflexivity.
  - rewrite Hreg. vm_compute. reflexivity.
Defined.

(** C1, where the code departs from it.  The module [config] defines
    [PI = 0].  [MathConsts.apply_to_module("config")], with [override]
    unset, leaves [PI] at [0]; [MathConsts.apply()] called from the
    code of [config], with [override] unset as well, replaces it by
    [3.14159]. *)
Theorem apply_scope_overwrites :
  dict_at config_heap config_dict !! PI = Some (VInt 0)
  ∧ (ConstClassMeta.apply_to_module defined MathConsts (pystr "config")
       false config_heap).1 = Ok ()
  ∧ dict_at (ConstClassMeta.apply_to_module defined MathConsts
               (pystr "config") false config_heap).2 config_dict !! PI
    = Some (VInt 0)
  ∧ (ConstClassMeta.apply defined MathConsts (Some apply_frame)
       false false config_heap).1 = Ok ()
  ∧ dict_at (ConstClassMeta.apply defined MathConsts (Some apply_frame)
               false false config_heap).2 config_dict !! PI
    = Some (VFloat 314159 (-5)).
Proof. by vm_compute. Qed.
End Session.

(** * Further properties of the code *)

Section Further.
Context `{UnicodeDB}.

(** The items that [read_constants] returns carry the values of the
    attributes. *)
Lemma read_constants_values st c names items :
  ConstClassMeta.read_constants st c names = Ok items
  → Forall (λ item, class_lookup st c item.1 = Some item.2) items.
Proof.
  revert items. induction names as [|n0 names IH]; intros items; cbn.
  - intros [= <-]. constructor.
  - unfold getattr. destruct (class_lookup st c n0) as [v0|] eqn:Hv0; [|done].
    destruct (ConstClassMeta.read_constants st c names) as [items'|];
      [|done].
    intros [= <-]. constructor; [done | by apply IH].
Qed.

(** The first name that does not resolve stops [read_constants]. *)
Lemma read_constants_raise st c names e :
  ConstClassMeta.read_constants st c names = Raise e
  → ∃ n, n ∈ names ∧ class_lookup st c n = None ∧ e = AttributeError n.
Proof.
  induction names as [|n0 names IH]; cbn; [done|].
  unfold getattr. destruct (class_lookup st c n0) as [v0|] eqn:Hv0.
  - destruct (ConstClassMeta.read_constants st c names) as [items'|e'];
      [done|].
    intros [= <-]. destruct IH as (n & ? & ? & ?); [done|].
    exists n. split_and!; [by right | done..].
  - intros [= <-]. exists n0. split_and!; [left | done..].
Qed.

(** X1.  When [const_names] returns, it lists every registered name
    once and no other name; [const_values] returns too, with as many
    entries, and its i-th entry is the value that the attribute named by
    the i-th name has on the class. *)
Theorem names_and_values_agree st c names :
  ConstClassMeta.const_names st c = Ok names
  → NoDup names
    ∧ (∀ n, n ∈ names ↔ n ∈ registered st c)
    ∧ ∃ values,
        ConstClassMeta.const_values st c = Ok values
        ∧ length values = length names
        ∧ ∀ i n, names !! i = Some n
                 → ∃ v, values !! i = Some v ∧ class_lookup st c n = Some v.
Proof.
  unfold ConstClassMeta.const_names, ConstClassMeta.const_values,
    ConstClassMeta.as_dict, registered.
  destruct (_class_constant_cache st !! c) as [reg|]; [|done].
  destruct (ConstClassMeta.read_constants st c (elements reg)) as [items|]
    eqn:Hread; [|done].
  intros [= <-].
  pose proof (read_constants_names _ _ _ _ Hread) as Hnames.
  pose proof (read_constants_values _ _ _ _ Hread) as Hvalues.
  split_and!.
  - rewrite Hnames. apply NoDup_elements.
  - intros n. rewrite Hnames. apply elem_of_elements.
  - exists items.*2. split_and!; [done | by rewrite !length_fmap |].
    intros i n. rewrite !list_lookup_fmap.
    destruct (items !! i) as [[n' v]|] eqn:Hi; [|done]. cbn.
    intros [= <-]. exists v. split; [done|].
    apply (proj1 (Forall_lookup _ _) Hvalues i (n', v) Hi).
Qed.

(** X2.  For a class with a registry, [as_dict] returns exactly when
    every registered name is still an attribute of the class; otherwise
    it raises the [AttributeError] of a registered name that is not. *)
Theorem as_dict_returns_iff_resolves st c reg :
  _class_constant_cache st !! c = Some reg
  → ((∃ items, ConstClassMeta.as_dict st c = Ok items) ↔ all_resolve st c)
    ∧ ∀ e, ConstClassMeta.as_dict st c = Raise e
           → ∃ n, n ∈ reg ∧ class_lookup st c n = None
                  ∧ e = AttributeError n.
Proof.
  intros Hreg. unfold all_resolve.
  rewrite (registered_lookup st c reg Hreg). split; [split|].
  - intros [items Hitems] n Hn. revert Hitems.
    unfold ConstClassMeta.as_dict. rewrite Hreg. intros Hread.
    pose proof (read_constants_names _ _ _ _ Hread) as Hnames.
    pose proof (read_constants_values _ _ _ _ Hread) as Hvalues.
    apply elem_of_elements in Hn. rewrite <-Hnames in Hn.
    apply list_elem_of_fmap in Hn as ([n' v] & -> & Hin).
    apply (proj1 (Forall_forall _ _) Hvalues) in Hin. by eauto.
  - intros Hres.
    destruct (as_dict_resolving st c reg Hreg Hres) as (items & ? & _).
    by eauto.
  - intros e. unfold ConstClassMeta.as_dict. rewrite Hreg.
    intros (n & Hn%elem_of_elements & ? & ?)%read_constants_raise. by eauto.
Qed.

(** X3.  An assignment to an attribute of one class, or a deletion,
    changes neither the dictionary nor the registry of any other class,
    whatever the outcome; the registries of its subclasses included. *)
Theorem other_classes_untouched st c name v c' :
  c' ≠ c
  → (classes (ConstClassMeta.__setattr__ st c name v).2 !! c'
       = classes st !! c'
     ∧ _class_constant_cache (ConstClassMeta.__setattr__ st c name v).2 !! c'
       = _class_constant_cache st !! c')
    ∧ (classes (ConstClassMeta.__delattr__ st c name).2 !! c'
         = classes st !! c'
       ∧ _class_constant_cache (ConstClassMeta.__delattr__ st c name).2 !! c'
         = _class_constant_cache st !! c').
Proof.
  intros Hne. split.
  - unfold ConstClassMeta.__setattr__.
    destruct (type_setattr st c name v) as [st1|] eqn:Hset; [|done].
    apply type_setattr_ok in Hset as (k & Hk & _ & ->). cbn.
    destruct (_class_constant_cache st !! c) as [reg|];
      [|by cbn; rewrite lookup_insert_ne].
    destruct (is_const name && negb (bool_decide (name ∈ reg))); cbn;
      by rewrite ?lookup_insert_ne.
  - unfold ConstClassMeta.__delattr__.
    destruct (type_delattr st c name) as [st1|] eqn:Hdel; [|done].
    apply type_delattr_ok in Hdel as (k & Hk & _ & ->). cbn.
    destruct (_class_constant_cache st !! c) as [reg|];
      [|by cbn; rewrite lookup_insert_ne].
    case_bool_decide; cbn; by rewrite ?lookup_insert_ne.
Qed.

(** X4.  When [cls.name = v] raises, the cache is what it was before;
    and when the assignment of [type.__setattr__] is what raised, its
    exception is the one raised and the state is unchanged. *)
Theorem failed_setattr_keeps_registry st c name v e st' :
  ConstClassMeta.__setattr__ st c name v = (Raise e, st')
  → _class_constant_cache st' = _class_constant_cache st
    ∧ (∀ e', type_setattr st c name v = Raise e' → e = e' ∧ st' = st).
Proof.
  unfold ConstClassMeta.__setattr__.
  destruct (type_setattr st c name v) as [st1|e'] eqn:Hset.
  - apply type_setattr_ok in Hset as (k & Hk & _ & ->). cbn.
    destruct (_class_constant_cache st !! c) as [reg|] eqn:Hreg.
    + by destruct (is_const name && negb (bool_decide (name ∈ reg))).
    + by intros [_ <-]%pair_equal_spec.
  - intros [[= <-] <-]%pair_equal_spec. split; [done|]. by intros ? [= <-].
Qed.











Lemma lookup_along_None st cs n :
  lookup_along st cs n = None ↔ ∀ b, b ∈ cs → class_dict st b !! n = None.
Proof.
  induction cs as [|b cs IH]; cbn.
  - split; [by intros _ ? ?%elem_of_nil | done].
  - destruct (class_dict st b !! n) as [v|] eqn:Hb.
    + split; [done|]. intros Hall. specialize (Hall b ltac:(left)).
      congruence.
    + rewrite IH. split.
      * intros Hall b' [->|?]%elem_of_cons; auto.
      * intros Hall b' ?. apply Hall. by right.
Qed.

Lemma lookup_along_only st cs n c v :
  c ∈ cs
  → class_dict st c !! n = Some v
  → (∀ b, b ∈ cs → b ≠ c → class_dict st b !! n = None)
  → lookup_along st cs n = Some v.
Proof.
  induction cs as [|b cs IH]; [by intros ?%elem_of_nil|].
  intros Hc Hv Hothers. cbn. destruct (decide (b = c)) as [->|Hne].
  - by rewrite Hv.
  - rewrite (Hothers b) by (done || left).
    apply IH; [|done|].
    + apply elem_of_cons in Hc as [->|?]; done.
    + intros b' ? ?. apply Hothers; [by right | done].
Qed.

(** X8.  A constant added to a base class after a subclass was created
    is an attribute of the subclass but is not registered for it: when
    [base.name = v] succeeds, [name] was no attribute of the subclass
    and was not registered for it, then on the subclass [getattr] finds
    [v], the registered set is unchanged, and [sub[name]] raises the
    unknown-constant [ValueError]. *)
Theorem base_assignment_not_registered st base name v st' sub k reg :
  ConstClassMeta.__setattr__ st base name v = (Ok (), st')
  → sub ≠ base
  → base ∈ mro st sub
  → class_lookup st sub name = None
  → classes st !! sub = Some k
  → _class_constant_cache st !! sub = Some reg
  → name ∉ reg
  → getattr st' sub name = Ok v
    ∧ _class_constant_cache st' !! sub = Some reg
    ∧ ConstClassMeta.__getitem__ st' sub name
      = Raise (ValueError
                 (ConstClassMeta.no_such_constant (cls_name k) name reg)).
Proof.
  intros (st1 & reg0 & Hset & Hreg0 & Hcls & Hcache)%setattr_ok
    Hne Hmro Hnone Hk Hreg Hout.
  apply type_setattr_ok in Hset as (kb & Hkb & _ & ->). cbn in Hcls.
  assert (classes st' !! sub = Some k) as Hk'
    by (rewrite Hcls; by rewrite lookup_insert_ne).
  assert (_class_constant_cache st' !! sub = Some reg) as Hreg'.
  { rewrite Hcache. destruct (is_const name); [|done].
    by rewrite lookup_insert_ne. }
  split_and!; [|done|by apply getitem_unknown].
  unfold getattr.
  set (st1 := PyState (<[base := set_dict <[name:=v]> kb]> (classes st))
                      (_class_constant_cache st)).
  rewrite (class_lookup_classes st1) by done.
  unfold class_lookup. unfold st1. rewrite (mro_update _ _ _ _ _ _ Hkb).
  erewrite (lookup_along_only _ _ _ base v); [done | done | |].
  - rewrite (class_dict_update _ _ _ _ _ _ Hkb), decide_True by done.
    apply lookup_insert_eq.
  - intros b Hb Hbne.
    rewrite (class_dict_update _ _ _ _ _ _ Hkb), decide_False by done.
    by apply (proj1 (lookup_along_None st (mro st sub) name) Hnone).
Qed.

(** X9.  The ASCII characters of a constant name: the name is not
    empty; its first character, when ASCII, is an uppercase letter; and
    every ASCII character of it is an uppercase letter, a digit or an
    underscore. *)
Theorem constant_name_ascii_shape name :
  is_const name = true
  → (∃ c0 rest, name = c0 :: rest ∧ (c0 < 128 → in_range 65 90 c0 = true))
    ∧ ∀ c, c ∈ name → c < 128
           → in_range 65 90 c || in_range 48 57 c || (c =? 95) = true.
Proof.
  intros (Hid & _ & Hcase & Hstart)%is_const_true.
  assert (∀ c, c ∈ name → c < 128 → in_range 97 122 c = false) as Hlower.
  { intros c Hc Hascii. destruct (in_range 97 122 c) eqn:Hl; [|done].
    assert (in_range 65 90 c = false) as Hu.
    { unfold in_range in *.
      apply andb_prop in Hl as [?%N.leb_le ?%N.leb_le].
      apply andb_false_iff. right. apply N.leb_gt. lia. }
    assert (ucd c = CharProps true true Lower) as Hucd.
    { unfold ucd, basic_latin. rewrite (proj2 (N.ltb_lt c 128) Hascii).
      by rewrite Hu, Hl. }
    specialize (Hcase c Hc). revert Hcase.
    unfold is_cased, Py_UNICODE_ISUPPER, Py_UNICODE_ISLOWER. rewrite Hucd.
    cbn. intros Hcase. by specialize (Hcase eq_refl). }
  destruct name as [|c0 rest]; [done|]. split.
  - exists c0, rest. split; [done|]. intros Hascii.
    cbn in Hid. apply andb_prop in Hid as [Hfirst _].
    assert (c0 ≠ 95) as Hne.
    { intros ->. change (pystr "_") with [95] in Hstart. cbn in Hstart.
      by destruct rest. }
    rewrite (proj2 (N.eqb_neq c0 95) Hne), orb_false_r in Hfirst.
    revert Hfirst. unfold ucd, basic_latin.
    rewrite (proj2 (N.ltb_lt c0 128) Hascii).
    rewrite (Hlower c0 ltac:(left) Hascii).
    destruct (in_range 65 90 c0); [done|].
    destruct (in_range 48 57 c0); [done|]. by destruct (c0 =? 95).
  - intros c Hc Hascii.
    assert (xid_continue (ucd c) = true) as Hcont.
    { cbn in Hid. apply andb_prop in Hid as [Hfirst Hrest].
      apply elem_of_cons in Hc as [->|Hc].
      - destruct (N.eqb_spec c0 95) as [->|Hne]; [done|].
        rewrite orb_false_r in Hfirst. revert Hfirst.
        unfold ucd, basic_latin. rewrite (proj2 (N.ltb_lt c0 128) Hascii).
        destruct (in_range 65 90 c0); [done|].
        destruct (in_range 97 122 c0); [done|].
        destruct (in_range 48 57 c0); [done|]. by destruct (c0 =? 95).
      - rewrite forallb_forall in Hrest. apply Hrest.
        by apply list_elem_of_In. }
    revert Hcont. unfold ucd, basic_latin.
    rewrite (proj2 (N.ltb_lt c 128) Hascii), (Hlower c Hc Hascii).
    destruct (in_range 65 90 c); [done|].
    destruct (in_range 48 57 c); [done|]. by destruct (c =? 95).
Qed.

(** On a dictionary the loop of [__apply] does the same with and
    without [override]. *)
Lemma apply_loop_dict_override st c d f names h :
  (∀ n, n ∈ names → is_const n = true)
  → ConstClassMeta.apply_loop st c (PyDict d) false f names h
    = ConstClassMeta.apply_loop st c (PyDict d) true f names h.
Proof.
  revert h. induction names as [|n0 names IH]; intros h Hconst; [done|].
  cbn [ConstClassMeta.apply_loop]. destruct (getattr st c n0); [|done].
  rewrite hasattr_dict_const by (apply Hconst; left). cbn.
  destruct (f n0 a h) as [[[]|e] h1]; [|done].
  apply IH. intros n ?. apply Hconst. by right.
Qed.

(** X10.  In scope mode [override] makes no difference: in every state
    that a program reaches, [apply] with [override] unset has the
    outcome, and leaves the namespaces, that it has with [override]
    set. *)
Theorem apply_scope_ignores_override prog c current_frame (local : bool) h :
  ConstClassMeta.apply (run prog initial) c current_frame local false h
  = ConstClassMeta.apply (run prog initial) c current_frame local true h.
Proof.
  unfold ConstClassMeta.apply. destruct current_frame as [fr|]; [|done].
  destruct (f_back fr) as [caller|]; [|done].
  unfold ConstClassMeta.__apply.
  destruct (_class_constant_cache (run prog initial) !! c) as [reg|] eqn:Hreg;
    [|done].
  apply apply_loop_dict_override. intros n Hn%elem_of_elements.
  eapply (run_cache_const prog initial); [|done..].
  intros c' reg' n' Hc'. cbn in Hc'. by rewrite lookup_empty in Hc'.
Qed.

Lemma dicts_store_ne d name v h d' :
  d' ≠ d → dicts (store d name v h) !! d' = dicts h !! d'.
Proof. intros Hne. cbn. by rewrite lookup_insert_ne. Qed.

(** Whatever its outcome, the loop of [__apply] writes to the
    dictionary at [d] only, and there only under the names it visits. *)
Lemma apply_loop_frame st c o override d names h :
  let out :=
    ConstClassMeta.apply_loop st c o override
      (λ name v h, (Ok (), store d name v h)) names h in
  sys_modules out.2 = sys_modules h
  ∧ (∀ d', d' ≠ d → dicts out.2 !! d' = dicts h !! d')
  ∧ ∀ n, n ∉ names → dict_at out.2 d !! n = dict_at h d !! n.
Proof.
  cbn zeta. revert h. induction names as [|n0 names IH]; intros h; [done|].
  cbn [ConstClassMeta.apply_loop]. destruct (getattr st c n0) as [v0|]; [|done].
  destruct (negb override && hasattr h o n0).
  - destruct (IH h) as (? & ? & Hn). split_and!; [done..|].
    intros n Hout. apply Hn. intros ?. apply Hout. by right.
  - destruct (IH (store d n0 v0 h)) as (-> & Hd & Hn). split_and!; [done | |].
    + intros d' Hne. by rewrite Hd, dicts_store_ne.
    + intros n Hout. rewrite Hn by (intros ?; apply Hout; by right).
      rewrite dict_at_store, decide_True by done.
      apply lookup_insert_ne. intros ->. apply Hout. left.
Qed.

(** X11.  [apply] and [apply_to_module] write nothing but registered
    names into the one namespace they are aimed at, whether they return
    or raise: the table of modules, every other dictionary, and every
    name that is not registered for the class, are left as they were. *)
Theorem apply_writes_registered_names_only st c current_frame
    (local override : bool) module_name h :
  (let out := ConstClassMeta.apply st c current_frame local override h in
   sys_modules out.2 = sys_modules h
   ∧ (∀ d', Some d' ≠ scope_of current_frame local
            → dicts out.2 !! d' = dicts h !! d')
   ∧ ∀ d' n, n ∉ registered st c → dict_at out.2 d' !! n = dict_at h d' !! n)
  ∧ (let out :=
       ConstClassMeta.apply_to_module st c module_name override h in
     sys_modules out.2 = sys_modules h
     ∧ (∀ d', Some d' ≠ sys_modules h !! module_name
              → dicts out.2 !! d' = dicts h !! d')
     ∧ ∀ d' n, n ∉ registered st c
               → dict_at out.2 d' !! n = dict_at h d' !! n).
Proof.
  assert (∀ o d,
    let out := ConstClassMeta.__apply st c o override
                 (λ name v h, (Ok (), store d name v h)) h in
    sys_modules out.2 = sys_modules h
    ∧ (∀ d', Some d' ≠ Some d → dicts out.2 !! d' = dicts h !! d')
    ∧ ∀ d' n, n ∉ registered st c
              → dict_at out.2 d' !! n = dict_at h d' !! n) as Hcore.
  { intros o d. cbn zeta. unfold ConstClassMeta.__apply, registered.
    destruct (_class_constant_cache st !! c) as [reg|]; [|done]. cbn.
    destruct (apply_loop_frame st c o override d (elements reg) h)
      as (Hmod & Hd & Hn).
    split_and!; [done | |].
    - intros d' Hne. apply Hd. congruence.
    - intros d' n Hout. destruct (decide (d' = d)) as [->|Hne].
      + apply Hn. by rewrite elem_of_elements.
      + unfold dict_at. by rewrite Hd. }
  split; cbn zeta.
  - unfold ConstClassMeta.apply, scope_of.
    destruct current_frame as [fr|]; [|done].
    destruct (f_back fr) as [caller|]; [|done]. apply Hcore.
  - unfold ConstClassMeta.apply_to_module, import_module.
    destruct (sys_modules h !! module_name) as [d|]; [|done]. apply Hcore.
Qed.

(** The loop of [__apply] ends normally exactly when every name it
    visits is an attribute of the class. *)
Lemma apply_loop_returns st c o override d names h :
  (ConstClassMeta.apply_loop st c o override
     (λ name v h, (Ok (), store d name v h)) names h).1 = Ok ()
  ↔ ∀ n, n ∈ names → is_Some (class_lookup st c n).
Proof.
  revert h. induction names as [|n0 names IH]; intros h.
  - split; [by intros _ ? ?%elem_of_nil | done].
  - cbn [ConstClassMeta.apply_loop]. unfold getattr.
    destruct (class_lookup st c n0) as [v0|] eqn:Hv0.
    + assert ((∀ n, n ∈ n0 :: names → is_Some (class_lookup st c n))
              ↔ ∀ n, n ∈ names → is_Some (class_lookup st c n)) as ->.
      { split.
        - intros Hall n ?. apply Hall. by right.
        - intros Hall n [->|?]%elem_of_cons; [by eauto | by apply Hall]. }
      destruct (negb override && hasattr h o n0); apply IH.
    + split; [done|]. intros Hall.
      destruct (Hall n0 ltac:(left)) as [? ?]. congruence.
Qed.

(** X12.  For a class with a registry, [apply] into a caller's scope
    and [apply_to_module] into a module that can be imported return
    exactly when every registered name is still an attribute of the
    class. *)
Theorem apply_returns_iff_resolves st c reg current caller
    (local override : bool) module_name d h :
  _class_constant_cache st !! c = Some reg
  → f_back current = Some caller
  → sys_modules h !! module_name = Some d
  → ((ConstClassMeta.apply st c (Some current) local override h).1 = Ok ()
     ↔ all_resolve st c)
    ∧ ((ConstClassMeta.apply_to_module st c module_name override h).1
       = Ok ()
       ↔ all_resolve st c).
Proof.
  intros Hreg Hback Hmod.
  assert (all_resolve st c
          ↔ ∀ n, n ∈ elements reg → is_Some (class_lookup st c n)) as ->.
  { unfold all_resolve. rewrite (registered_lookup st c reg Hreg).
    split; intros Hall n Hn; apply Hall; by apply elem_of_elements. }
  split.
  - unfold ConstClassMeta.apply, ConstClassMeta.__apply, dict_setitem.
    rewrite Hback, Hreg. apply apply_loop_returns.
  - unfold ConstClassMeta.apply_to_module, import_module,
      ConstClassMeta.__apply, obj_setattr.
    rewrite Hmod, Hreg. apply apply_loop_returns.
Qed.

Lemma run_initial_cache_const prog : cache_const (run prog initial).
Proof.
  apply run_cache_const. intros c reg n Hc. cbn in Hc.
  by rewrite lookup_empty in Hc.
Qed.

(** X13.  [apply_to_module] honours [override].  In a state that a
    program reaches, for a class all of whose registered names are
    attributes of it and a module that can be imported, the call
    returns; with [override] unset a registered name that is already a
    variable of the module keeps its value; a registered name that is
    not, and every registered name when [override] is set, gets the
    value of the class attribute; and the other variables of the module
    are unchanged. *)
Theorem apply_to_module_honours_override prog c reg module_name d
    (override : bool) h :
  _class_constant_cache (run prog initial) !! c = Some reg
  → all_resolve (run prog initial) c
  → sys_modules h !! module_name = Some d
  → ∃ h',
      ConstClassMeta.apply_to_module (run prog initial) c module_name
        override h = (Ok (), h')
      ∧ (∀ n v, n ∈ reg → override = false → dict_at h d !! n = Some v
                → dict_at h' d !! n = Some v)
      ∧ (∀ n, n ∈ reg → override = true ∨ dict_at h d !! n = None
              → dict_at h' d !! n = class_lookup (run prog initial) c n)
      ∧ (∀ n, n ∉ reg → dict_at h' d !! n = dict_at h d !! n).
Proof.
  set (st := run prog initial). intros Hreg Hres Hmod.
  unfold all_resolve in Hres. rewrite (registered_lookup st c reg Hreg) in Hres.
  destruct (apply_to_module_spec st c reg module_name d override h)
    as (h' & Happly & _ & Hd); [done.. | | done |].
  { intros n Hn. by eapply (run_initial_cache_const prog). }
  exists h'. split_and!; [done | | |].
  - intros n v Hn -> Hv. rewrite Hd, Hv. cbn. by rewrite andb_false_r.
  - intros n Hn Hcond. rewrite Hd, (bool_decide_eq_true_2 _ Hn). cbn.
    destruct Hcond as [->|Hnone]; [done|].
    by rewrite (bool_decide_eq_true_2 _ Hnone), orb_true_r.
  - intros n Hn. by rewrite Hd, (bool_decide_eq_false_2 _ Hn).
Qed.


(** X15.  Copying twice is copying once.  When [apply_to_module]
    returned, the same call on the heap it left returns too and leaves
    every dictionary with the variables it had; and so for [apply] into
    a caller's scope. *)
Theorem apply_twice prog c reg module_name d current caller
    (local override : bool) h :
  _class_constant_cache (run prog initial) !! c = Some reg
  → all_resolve (run prog initial) c
  → sys_modules h !! module_name = Some d
  → f_back current = Some caller
  → (∃ h' h'',
       ConstClassMeta.apply_to_module (run prog initial) c module_name
         override h = (Ok (), h')
       ∧ ConstClassMeta.apply_to_module (run prog initial) c module_name
           override h' = (Ok (), h'')
       ∧ ∀ d', dict_at h'' d' = dict_at h' d')
    ∧ (∃ h' h'',
         ConstClassMeta.apply (run prog initial) c (Some current) local
           override h = (Ok (), h')
         ∧ ConstClassMeta.apply (run prog initial) c (Some current) local
             override h' = (Ok (), h'')
         ∧ ∀ d', dict_at h'' d' = dict_at h' d').
Proof.
  set (st := run prog initial). intros Hreg Hres Hmod Hback.
  unfold all_resolve in Hres. rewrite (registered_lookup st c reg Hreg) in Hres.
  assert (∀ n, n ∈ elements reg → is_Some (class_lookup st c n)) as Hres'.
  { intros n ?%elem_of_elements. by apply Hres. }
  assert (∀ o d0,
    ∃ h' h'',
      ConstClassMeta.__apply st c o override
        (λ name v h, (Ok (), store d0 name v h)) h = (Ok (), h')
      ∧ sys_modules h' = sys_modules h
      ∧ ConstClassMeta.__apply st c o override
          (λ name v h, (Ok (), store d0 name v h)) h' = (Ok (), h'')
      ∧ ∀ d', dict_at h'' d' = dict_at h' d') as Hcore.
  { intros o d0. unfold ConstClassMeta.__apply. rewrite Hreg.
    destruct (apply_loop_spec st c o override d0 (elements reg) h
                (NoDup_elements reg) Hres') as (h' & H1 & Hm & Hoth & Hd).
    destruct (apply_loop_spec st c o override d0 (elements reg) h'
                (NoDup_elements reg) Hres') as (h'' & H2 & _ & Hoth' & Hd').
    exists h', h''. split_and!; [done..|].
    intros d'. destruct (decide (d' = d0)) as [->|Hne]; [|by apply Hoth'].
    apply map_eq. intros n. rewrite Hd'.
    destruct (bool_decide (n ∈ elements reg)) eqn:Hin; [|done]. cbn.
    destruct override; cbn.
    - by rewrite Hd, Hin.
    - destruct (hasattr h' o n) eqn:Hh'; [done|]. cbn.
      pose proof (Hd n) as Hdn. rewrite Hin in Hdn. cbn in Hdn.
      destruct (hasattr h o n) eqn:Hh; [|done]. cbn in Hdn.
      (* the first call skipped the name, so the object still has it *)
      assert (hasattr h' o n = true) as Hh''; [|congruence].
      destruct o as [dm|dd]; [|exact Hh]. cbn [hasattr] in Hh |- *.
      destruct (bool_decide (n ∈ module_type_dir)); [done|].
      cbn [orb] in Hh |- *.
      destruct (decide (dm = d0)) as [->|Hne].
      + by rewrite Hdn.
      + by rewrite Hoth. }
  split.
  - unfold ConstClassMeta.apply_to_module, import_module. rewrite Hmod.
    destruct (Hcore (PyModule d) d) as (h' & h'' & H1 & Hm & H2 & Heq).
    exists h', h''. rewrite Hm, Hmod. by split_and!.
  - unfold ConstClassMeta.apply. rewrite Hback.
    destruct (Hcore (PyDict (if local then f_locals caller
                             else f_globals caller))
                (if local then f_locals caller else f_globals caller))
      as (h' & h'' & H1 & Hm & H2 & Heq).
    exists h', h''. by split_and!.
Qed.
End Further.

(** ** The further properties on the session *)

Section FurtherSession.
#[local] Existing Instance ucd_tabulated.

Lemma math_consts_class :
  classes defined !! MathConsts
  = Some (PyClass (pystr "MathConsts") MetaConstClass [BaseConstClass]
            {[ PI := VFloat 314159 (-5); helper := VObj 1 ]}).
Proof. vm_compute. reflexivity. Qed.

Lemma math_consts_registry :
  _class_constant_cache defined !! MathConsts = Some {[PI]}.
Proof. vm_compute. reflexivity. Qed.

Lemma derived_class :
  classes defined !! Derived
  = Some (PyClass (pystr "Derived") MetaConstClass
            [MathConsts; BaseConstClass] ∅).
Proof. vm_compute. reflexivity. Qed.

Lemma derived_registry :
  _class_constant_cache defined !! Derived = Some {[PI]}.
Proof. vm_compute. reflexivity. Qed.

Lemma math_consts_resolve : all_resolve defined MathConsts.
Proof. exact (session_in_step MathConsts _ math_consts_class eq_refl). Qed.

(** X1, witness: the names and the values of [MathConsts]. *)
Lemma names_and_values_in_session :
  ∃ values,
    ConstClassMeta.const_values defined MathConsts = Ok values
    ∧ length values = 1%nat.
Proof.
  assert (ConstClassMeta.const_names defined MathConsts = Ok [PI]) as Hnames
    by (vm_compute; reflexivity).
  pose proof (names_and_values_agree defined MathConsts [PI] Hnames)
    as (_ & _ & values & Hvalues & Hlen & _).
  exists values. split; [exact Hvalues | exact Hlen].
Defined.

(** X2, witness: [Derived.as_dict()] in the stale state. *)
Lemma as_dict_raises_in_stale :
  ∃ n, n ∈ ({[PI]} : gset str)
       ∧ class_lookup stale Derived n = None
       ∧ AttributeError PI = AttributeError n.
Proof.
  assert (_class_constant_cache stale !! Derived = Some {[PI]}) as Hreg
    by (vm_compute; reflexivity).
  assert (ConstClassMeta.as_dict stale Derived = Raise (AttributeError PI))
    as Hraise by (vm_compute; reflexivity).
  pose proof (as_dict_returns_iff_resolves stale Derived {[PI]} Hreg)
    as [_ Hwhy].
  exact (Hwhy (AttributeError PI) Hraise).
Defined.

(** X3, witness: [MathConsts.E = 2.71828] and the registry of
    [Derived]. *)
Lemma derived_untouched_in_session :
  _class_constant_cache
    (ConstClassMeta.__setattr__ defined MathConsts E (VFloat 271828 (-5))).2
    !! Derived
  = _class_constant_cache defined !! Derived.
Proof.
  assert (Derived ≠ MathConsts) as Hne by (unfold Derived, MathConsts; lia).
  pose proof (other_classes_untouched defined MathConsts E
                (VFloat 271828 (-5)) Derived Hne) as [[_ Hcache] _].
  exact Hcache.
Defined.

(** X4, witness: [MathConsts.const_names = None]. *)
Lemma failed_setattr_in_session :
  _class_constant_cache
    (ConstClassMeta.__setattr__ defined MathConsts (pystr "const_names")
       VNone).2
  = _class_constant_cache defined.
Proof.
  assert (ConstClassMeta.__setattr__ defined MathConsts (pystr "const_names")
            VNone
          = (Raise (AttributeError (pystr "const_names")),
             (ConstClassMeta.__setattr__ defined MathConsts
                (pystr "const_names") VNone).2)) as Hset
    by (vm_compute; reflexivity).
  pose proof (failed_setattr_keeps_registry defined MathConsts _ _ _ _ Hset)
    as [Hcache _].
  exact Hcache.
Defined.




(** X8, witness: [MathConsts.E = 2.71828] seen from [Derived]. *)
Lemma base_assignment_in_session :
  let st' :=
    (ConstClassMeta.__setattr__ defined MathConsts E (VFloat 271828 (-5))).2
  in
  getattr st' Derived E = Ok (VFloat 271828 (-5))
  ∧ ConstClassMeta.__getitem__ st' Derived E
    = Raise (ValueError (pystr
        "Class Derived does not contain a constant named E. Existing constants are PI")).
Proof.
  intros st'.
  assert (ConstClassMeta.__setattr__ defined MathConsts E
            (VFloat 271828 (-5)) = (Ok (), st')) as Hset
    by (vm_compute; reflexivity).
  assert (Derived ≠ MathConsts) as Hne by (unfold Derived, MathConsts; lia).
  assert (MathConsts ∈ mro defined Derived) as Hmro
    by (vm_compute; right; left).
  assert (class_lookup defined Derived E = None) as Hnone
    by (vm_compute; reflexivity).
  assert (E ∉ ({[PI]} : gset str)) as Hout.
  { intros Hin%elem_of_singleton. revert Hin. vm_compute. discriminate. }
  pose proof (base_assignment_not_registered defined MathConsts E _ st'
                Derived _ {[PI]} Hset Hne Hmro Hnone derived_class
                derived_registry Hout) as (Hget & _ & Hitem).
  split; [exact Hget|]. rewrite Hitem. vm_compute. reflexivity.
Defined.

(** X9, witness: the first character of [PI]. *)
Lemma constant_name_shape_of_PI :
  in_range 65 90 80 || in_range 48 57 80 || (80 =? 95) = true.
Proof.
  pose proof (constant_name_ascii_shape PI eq_refl) as [_ Hchars].
  apply (Hchars 80).
  - vm_compute. left.
  - lia.
Defined.

(** X12, witness: [MathConsts.apply()] from the code of [config]. *)
Lemma apply_returns_in_session :
  (ConstClassMeta.apply defined MathConsts (Some apply_frame) false false
     config_heap).1 = Ok ().
Proof.
  pose proof (apply_returns_iff_resolves defined MathConsts {[PI]}
                apply_frame config_frame false false (pystr "config")
                config_dict config_heap math_consts_registry eq_refl eq_refl)
    as [Hscope _].
  apply Hscope. exact math_consts_resolve.
Defined.

(** X13, witness: [MathConsts.apply_to_module("config")] keeps the
    [PI = 0] of the module. *)
Lemma apply_to_module_in_session :
  ∃ h',
    ConstClassMeta.apply_to_module defined MathConsts (pystr "config") false
      config_heap = (Ok (), h')
    ∧ dict_at h' config_dict !! PI = Some (VInt 0).
Proof.
  pose proof (apply_to_module_honours_override session MathConsts {[PI]}
                (pystr "config") config_dict false config_heap
                math_consts_registry math_consts_resolve eq_refl)
    as (h' & Happly & Hkeep & _).
  exists h'. split; [exact Happly|].
  apply Hkeep; [by apply elem_of_singleton | reflexivity |].
  vm_compute. reflexivity.
Defined.


(** X15, witness: [MathConsts.apply_to_module("config")], twice. *)
Lemma apply_twice_in_session :
  ∃ h' h'',
    ConstClassMeta.apply_to_module defined MathConsts (pystr "config") false
      config_heap = (Ok (), h')
    ∧ ConstClassMeta.apply_to_module defined MathConsts (pystr "config")
        false h' = (Ok (), h'')
    ∧ dict_at h'' config_dict = dict_at h' config_dict.
Proof.
  pose proof (apply_twice session MathConsts {[PI]} (pystr "config")
                config_dict apply_frame config_frame false false config_heap
                math_consts_registry math_consts_resolve eq_refl eq_refl)
    as [(h' & h'' & Hfirst & Hsecond & Hsame) _].
  exists h', h''. split_and!; [exact Hfirst | exact Hsecond | apply Hsame].
Defined.
End FurtherSession.
